(** * Outline MCP bridge: a shallow embedding of [src/index.js]

    The program is one class, [OutlineServer], that answers the MCP tool
    call [search_documents] by querying an Outline wiki over HTTP.  This
    development embeds its methods ([extractKeywords], [getDocument],
    [searchDocuments], the constructor and the two request handlers) and
    proves the properties the specification states about them.

    Modelling decisions, all taken from the source:
    - a JavaScript string is its sequence of UTF-16 code units, so that
      [length] is [String.prototype.length];
    - [String.prototype.toLowerCase] is the host's: it is a parameter of the
      development (only its action on ASCII text is ever assumed, and only
      where a concrete query is evaluated);
    - the wiki is a parameter as well: an arbitrary state type with one
      transition per endpoint, so that no theorem depends on what the
      wiki answers;
    - a payload of the wiki may be malformed where the code would throw on
      it: a hit may lack its [document], and [context] and [text] may hold
      a value that has no [substring] method.  The [TypeError] raised then
      is worded by the JavaScript engine, so the wording is listed with the
      malformed value, as part of the environment.  [id], [title] and
      [urlId] are strings where they are present, and the body of a
      response is an object;
    - numbers are integers;
    - [async] code is run in the order in which it issues its requests, each
      request being answered as it is issued; every request is recorded
      with its answer in a trace, also when the code no longer waits for
      the answer;
    - an [McpError] is recorded by the code and the message text it is
      constructed with (the class is the SDK's);
    - [console.error] diagnostics are not modelled. *)

From Stdlib Require Import NArith ZArith Bool String Ascii List Lia.
Import ListNotations.

Set Implicit Arguments.
Set Warnings "-register-all".

(** ** JavaScript strings *)

Module JS.

(** A UTF-16 code unit. *)
Definition code_unit : Type := N.

Definition jsstring : Type := list code_unit.

(** A string literal of the source (all of them are ASCII). *)
Definition lit (s : string) : jsstring :=
  map N_of_ascii (list_ascii_of_string s).

Fixpoint str_eqb (a b : jsstring) : bool :=
  match a, b with
  | [], [] => true
  | x :: a', y :: b' => N.eqb x y && str_eqb a' b'
  | _, _ => false
  end.

(** [\s] of an ECMAScript regular expression without the [u] flag:
    WhiteSpace and LineTerminator code units. *)
Definition is_whitespace (c : code_unit) : bool :=
  ((9 <=? c) && (c <=? 13)        (* TAB, LF, VT, FF, CR *)
   || (c =? 32)                   (* SPACE *)
   || (c =? 160)                  (* NO-BREAK SPACE *)
   || (c =? 5760)                 (* U+1680 *)
   || ((8192 <=? c) && (c <=? 8202))  (* U+2000 .. U+200A *)
   || (c =? 8232) || (c =? 8233)  (* U+2028, U+2029 *)
   || (c =? 8239)                 (* U+202F *)
   || (c =? 8287)                 (* U+205F *)
   || (c =? 12288)                (* U+3000 *)
   || (c =? 65279))%N.            (* U+FEFF *)

(** The character class [[a-zA-Z0-9]]. *)
Definition is_alnum (c : code_unit) : bool :=
  (((48 <=? c) && (c <=? 57))
   || ((65 <=? c) && (c <=? 90))
   || ((97 <=? c) && (c <=? 122)))%N.

(** [s.split(/\s+/)].  The scan keeps the piece read so far in [cur] and
    remembers in [in_ws] whether it stands inside a run of white space: a
    run ends the current piece once, however long it is.  As in JavaScript
    the result is never empty: white space at either end of [s] yields an
    empty piece there, and the empty string splits into one empty piece. *)
Fixpoint split_go (in_ws : bool) (cur : jsstring) (s : jsstring)
  : list jsstring :=
  match s with
  | [] => [cur]
  | c :: s' =>
      if is_whitespace c then
        if in_ws then split_go true [] s'
        else cur :: split_go true [] s'
      else split_go false (cur ++ [c]) s'
  end.

Definition split_whitespace (s : jsstring) : list jsstring :=
  split_go false [] s.

(** [arr.includes(word)] on an array of strings. *)
Definition includes (arr : list jsstring) (word : jsstring) : bool :=
  existsb (str_eqb word) arr.

(** [word.match(/^[^a-zA-Z0-9]+$/)] is not null: one code unit or more, none
    of them in the class. *)
Definition matches_only_non_alnum (word : jsstring) : bool :=
  match word with
  | [] => false
  | _ :: _ => forallb (fun c => negb (is_alnum c)) word
  end.

(** [s.replace(/\/$/, '')]: the pattern can only match a final slash. *)
Fixpoint replace_trailing_slash (s : jsstring) : jsstring :=
  match s with
  | [] => []
  | [c] => if (c =? 47)%N then [] else [c]
  | c :: s' => c :: replace_trailing_slash s'
  end.

(** [s.substring(start, end)] with integer arguments: both ends are clamped
    to [0 .. length s] and swapped when out of order. *)
Definition substring (s : jsstring) (start end_ : Z) : jsstring :=
  let len := Z.of_nat (length s) in
  let finalStart := Z.min (Z.max start 0) len in
  let finalEnd := Z.min (Z.max end_ 0) len in
  let from := Z.min finalStart finalEnd in
  let to := Z.max finalStart finalEnd in
  firstn (Z.to_nat (to - from)) (skipn (Z.to_nat from) s).

(** [a || b] where [a] is a string or undefined: the empty string is falsy. *)
Definition or_else (a : option jsstring) (b : jsstring) : jsstring :=
  match a with
  | Some (c :: s) => c :: s
  | _ => b
  end.

End JS.

Import JS.

(** ** extractKeywords *)

Definition stopWords : list jsstring :=
  map lit
    ["how"; "do"; "i"; "to"; "the"; "a"; "an"; "and"; "or"; "but"; "in";
     "on"; "at"; "what"; "where"; "when"; "why"; "which"; "who"; "whom";
     "whose"; "can"; "could"; "should"; "would"; "will"]%string.

(** The callback of [filter] at lines 61-63. *)
Definition significant (word : jsstring) : bool :=
  (2 <? length word)%nat
  && negb (includes stopWords word)
  && negb (matches_only_non_alnum word).

Section ExtractKeywords.

(** The host's [String.prototype.toLowerCase]. *)
Variable toLowerCase : jsstring -> jsstring.

Definition extractKeywords (query : jsstring) : list jsstring :=
  filter significant (split_whitespace (toLowerCase query)).

End ExtractKeywords.

(** What is assumed of [toLowerCase] where a concrete ASCII query is
    evaluated: on ASCII text it maps [A-Z] to [a-z] and nothing else. *)
Definition ascii_lower (c : code_unit) : code_unit :=
  if ((65 <=? c) && (c <=? 90))%N then (c + 32)%N else c.

Definition is_ascii (c : code_unit) : bool := (c <? 128)%N.

Definition lowercases_ascii (toLowerCase : jsstring -> jsstring) : Prop :=
  forall s, forallb is_ascii s = true -> toLowerCase s = map ascii_lower s.

(** A host function that meets [lowercases_ascii], to run examples with. *)
Definition ascii_toLowerCase (s : jsstring) : jsstring := map ascii_lower s.

(** ** Values of the tool call

    The arguments of a tool call arrive as parsed JSON; the handler inspects
    them with [typeof] and truthiness.  Numbers are the integers (the tool's
    two numeric parameters are counts). *)

Inductive JSValue : Type :=
| JSUndefined
| JSNull
| JSBoolean (b : bool)
| JSNumber (n : Z)
| JSString (s : jsstring)
| JSArray (elements : list JSValue)
| JSObject (properties : list (jsstring * JSValue)).

Inductive JSType : Type :=
| TUndefined | TObject | TBoolean | TNumber | TString.

Definition typeof (v : JSValue) : JSType :=
  match v with
  | JSUndefined => TUndefined
  | JSNull => TObject
  | JSBoolean _ => TBoolean
  | JSNumber _ => TNumber
  | JSString _ => TString
  | JSArray _ => TObject
  | JSObject _ => TObject
  end.

Definition JSType_eqb (a b : JSType) : bool :=
  match a, b with
  | TUndefined, TUndefined | TObject, TObject | TBoolean, TBoolean
  | TNumber, TNumber | TString, TString => true
  | _, _ => false
  end.

(** ToBoolean. *)
Definition truthy (v : JSValue) : bool :=
  match v with
  | JSUndefined | JSNull => false
  | JSBoolean b => b
  | JSNumber n => negb (n =? 0)%Z
  | JSString s => negb (str_eqb s [])
  | JSArray _ | JSObject _ => true
  end.

(** The properties of an object are listed with their keys (an object has
    each key once; the first entry counts). *)
Fixpoint lookup (key : jsstring) (properties : list (jsstring * JSValue))
  : JSValue :=
  match properties with
  | [] => JSUndefined
  | (k, v) :: rest => if str_eqb key k then v else lookup key rest
  end.

(** [v.key] for the keys the handler reads ([query], [top_k], [max_chars]),
    on a value that is neither undefined nor null: only an object can have
    one of them. *)
Definition get_property (v : JSValue) (key : jsstring) : JSValue :=
  match v with
  | JSObject properties => lookup key properties
  | _ => JSUndefined
  end.

(** ** Errors *)

Inductive ErrorCode : Type :=
| InternalError | InvalidParams | MethodNotFound.

(** What a [throw] carries: an [McpError] of the SDK with the code and the
    message text it was constructed with, an error rejected by axios (with
    [error.response?.data?.message] and [error.message]), a [TypeError]
    raised by the engine (with its message), or a plain [Error]. *)
Inductive JSError : Type :=
| McpError (code : ErrorCode) (message : jsstring)
| AxiosError (response_message : option jsstring) (message : jsstring)
| TypeError (message : jsstring)
| PlainError (message : jsstring).

Definition instanceof_McpError (e : JSError) : bool :=
  match e with McpError _ _ => true | _ => false end.

(** [Error.prototype.toString]: the name alone when the message is empty,
    the name, a colon and the message otherwise. *)
Definition name_and_message (name message : jsstring) : jsstring :=
  match message with
  | [] => name
  | _ :: _ => name ++ lit ": " ++ message
  end.

(** [`${error}`]: the error's name and message.  The handler only formats
    errors that are not an [McpError] (line 190); for an [McpError], whose
    message the SDK composes, the text it was constructed with stands for
    the message. *)
Definition error_toString (e : JSError) : jsstring :=
  match e with
  | McpError _ m => name_and_message (lit "McpError") m
  | AxiosError _ m => name_and_message (lit "AxiosError") m
  | TypeError m => name_and_message (lit "TypeError") m
  | PlainError m => name_and_message (lit "Error") m
  end.

(** ** The wiki's HTTP interface

    [response.data.data] is kept as loose as the code's own tests on it
    ([&&], [Array.isArray], [fullDoc ? :]), and the values the code would
    throw on are part of the payloads. *)

Record Document : Type := {
  doc_id : option jsstring;
  doc_title : option jsstring;
  doc_urlId : option jsstring
}.

(** A property that is read for its text with [(value || '').substring]
    (line 115): absent or falsy; a string; or a truthy value of another
    type, which has no [substring], listed with the engine's wording of
    the [TypeError]. *)
Inductive TextField : Type :=
| TextAbsent
| TextString (s : jsstring)
| TextOther (wording : jsstring).

(** [result.document] (line 110): undefined or null (as when [result]
    itself is), so that reading [doc.id] throws a [TypeError] with the
    engine's wording; or a document. *)
Inductive HitDocument : Type :=
| DocumentMissing (wording : jsstring)
| DocumentObject (d : Document).

Record SearchHit : Type := {
  hit_document : HitDocument;
  hit_context : TextField
}.

(** [response.data.data] of [documents.search]. *)
Inductive SearchData : Type :=
| DataFalsy                      (* undefined, null or another falsy value *)
| DataNotArray                   (* truthy, and not an array *)
| DataArray (hits : list SearchHit).

Record RawDocument : Type := {
  raw_text : TextField
}.

(** [response.data.data] of [documents.info], and what [getDocument]
    returns: null, undefined (or another falsy value), or a truthy value,
    read as a document. *)
Inductive FullDoc : Type :=
| FullDocNull
| FullDocUndefined
| FullDocObject (d : RawDocument).

Definition FullDoc_truthy (d : FullDoc) : bool :=
  match d with FullDocObject _ => true | _ => false end.

(** The promise of [axios.post]: fulfilled with the payload, or rejected. *)
Inductive AxiosResult (A : Type) : Type :=
| AxiosOk (data : A)
| AxiosFail (response_message : option jsstring) (message : jsstring).

Arguments AxiosOk {A} data.
Arguments AxiosFail {A} response_message message.

Record SearchRequest : Type := {
  sr_url : jsstring;
  sr_authorization : jsstring;
  sr_query : jsstring;
  sr_limit : Z;
  sr_offset : Z;
  sr_statusFilter : list jsstring
}.

Record InfoRequest : Type := {
  ir_url : jsstring;
  ir_authorization : jsstring;
  ir_id : option jsstring
}.

(** One request sent upstream, with the answer it got. *)
Inductive Event : Type :=
| SearchEvent (request : SearchRequest) (response : AxiosResult SearchData)
| InfoEvent (request : InfoRequest) (response : AxiosResult FullDoc).

(** A wiki: its states, and how it answers each endpoint. *)
Record Upstream : Type := {
  World : Type;
  documents_search :
    SearchRequest -> World -> AxiosResult SearchData * World;
  documents_info :
    InfoRequest -> World -> AxiosResult FullDoc * World
}.

(** ** The monad of the server's methods

    A computation runs against the wiki's state; it returns or throws, lists
    the requests it sent and leaves the wiki in a new state. *)

Inductive Outcome (A : Type) : Type :=
| Returned (value : A)
| Thrown (error : JSError).

Arguments Returned {A} value.
Arguments Thrown {A} error.

Definition M (U : Upstream) (A : Type) : Type :=
  World U -> Outcome A * list Event * World U.

Section Monad.

Variable U : Upstream.

Definition ret {A} (a : A) : M U A :=
  fun w => (Returned a, [], w).

Definition throw {A} (e : JSError) : M U A :=
  fun w => (Thrown e, [], w).

Definition bind {A B} (m : M U A) (f : A -> M U B) : M U B :=
  fun w =>
    match m w with
    | (Returned a, t1, w1) =>
        match f a w1 with
        | (o, t2, w2) => (o, t1 ++ t2, w2)
        end
    | (Thrown e, t1, w1) => (Thrown e, t1, w1)
    end.

(** [try { m } catch (error) { handler error }]. *)
Definition try_catch {A} (m : M U A) (handler : JSError -> M U A) : M U A :=
  fun w =>
    match m w with
    | (Returned a, t1, w1) => (Returned a, t1, w1)
    | (Thrown e, t1, w1) =>
        match handler e w1 with
        | (o, t2, w2) => (o, t1 ++ t2, w2)
        end
    end.

(** [await axios.post(.../api/documents.search, ...)]. *)
Definition post_search (request : SearchRequest) : M U SearchData :=
  fun w =>
    match documents_search U request w with
    | (AxiosOk data, w1) =>
        (Returned data, [SearchEvent request (AxiosOk data)], w1)
    | (AxiosFail rm m, w1) =>
        (Thrown (AxiosError rm m), [SearchEvent request (AxiosFail rm m)], w1)
    end.

(** [await axios.post(.../api/documents.info, ...)]. *)
Definition post_info (request : InfoRequest) : M U FullDoc :=
  fun w =>
    match documents_info U request w with
    | (AxiosOk data, w1) =>
        (Returned data, [InfoEvent request (AxiosOk data)], w1)
    | (AxiosFail rm m, w1) =>
        (Thrown (AxiosError rm m), [InfoEvent request (AxiosFail rm m)], w1)
    end.

(** A value computed without a request, or an error thrown. *)
Definition lift {A} (r : JSError + A) : M U A :=
  match r with
  | inl e => throw e
  | inr a => ret a
  end.

(** What the promise of an [async] callback is when [map] returns: rejected
    already, when the callback threw before its first [await]; or pending,
    the callback having sent its request and waiting for the answer. *)
Inductive Started (B : Type) : Type :=
| RejectedAtOnce (error : JSError)
| Pending (rest : M U B).

Arguments RejectedAtOnce {B} error.
Arguments Pending {B} rest.

(** The callbacks that are pending run to their end, in the order in which
    they sent their requests, whatever becomes of the others. *)
Fixpoint settle {B} (promises : list (Started B)) (w : World U)
  : list (Outcome B) * list Event * World U :=
  match promises with
  | [] => ([], [], w)
  | RejectedAtOnce e :: rest =>
      match settle rest w with
      | (outcomes, tr, w') => (Thrown e :: outcomes, tr, w')
      end
  | Pending m :: rest =>
      match m w with
      | (o, t1, w1) =>
          match settle rest w1 with
          | (outcomes, t2, w2) => (o :: outcomes, t1 ++ t2, w2)
          end
      end
  end.

Fixpoint first_rejected_at_once {B} (promises : list (Started B))
  : option JSError :=
  match promises with
  | [] => None
  | RejectedAtOnce e :: _ => Some e
  | Pending _ :: rest => first_rejected_at_once rest
  end.

(** All the values, or the first error. *)
Fixpoint all_values {B} (outcomes : list (Outcome B)) : Outcome (list B) :=
  match outcomes with
  | [] => Returned []
  | Thrown e :: _ => Thrown e
  | Returned b :: rest =>
      match all_values rest with
      | Returned bs => Returned (b :: bs)
      | Thrown e => Thrown e
      end
  end.

(** [await Promise.all(promises)]: rejected by the first promise that was
    rejected already, else by the first pending one that fails, else
    fulfilled with all the values. *)
Definition promise_all {B} (promises : list (Started B)) : M U (list B) :=
  fun w =>
    match settle promises w with
    | (outcomes, tr, w') =>
        (match first_rejected_at_once promises with
         | Some e => Thrown e
         | None => all_values outcomes
         end,
         tr, w')
    end.

End Monad.

Arguments ret {U A} a.
Arguments throw {U A} e.
Arguments bind {U A B} m f.
Arguments try_catch {U A} m handler.
Arguments post_search {U} request.
Arguments post_info {U} request.
Arguments lift {U A} r.
Arguments RejectedAtOnce {U B} error.
Arguments Pending {U B} rest.
Arguments settle {U B} promises w.
Arguments first_rejected_at_once {U B} promises.
Arguments all_values {B} outcomes.
Arguments promise_all {U B} promises.

Notation "x <- m ;; k" := (bind m (fun x => k))
  (at level 61, m at next level, right associativity).

(** ** The server *)

Record OutlineServer : Type := {
  apiKey : jsstring;
  instanceUrl : jsstring
}.

(** The constructor (lines 43-47), given the two environment variables:
    each must be set and not empty. *)
Definition new_OutlineServer
  (OUTLINE_API_KEY OUTLINE_INSTANCE_URL : option jsstring)
  : JSError + OutlineServer :=
  let key := or_else OUTLINE_API_KEY [] in
  let url := or_else OUTLINE_INSTANCE_URL [] in
  if str_eqb key [] || str_eqb url [] then
    inl (PlainError (lit
      "OUTLINE_API_KEY and OUTLINE_INSTANCE_URL environment variables are required"))
  else inr {| apiKey := key; instanceUrl := url |}.

(** A search result item (lines 112-117). *)
Record DocumentSummary : Type := {
  sum_id : jsstring;
  sum_title : jsstring;
  sum_text : jsstring;
  sum_url : jsstring
}.

(** The request of a tool call, after the SDK has parsed it:
    [request.params.name] and [request.params.arguments] (undefined when the
    caller sent none). *)
Record CallToolRequest : Type := {
  params_name : jsstring;
  params_arguments : JSValue
}.

(** The handler's answer: one content block of type [text] that holds the
    documents as JSON (the serialisation itself is not modelled). *)
Inductive CallToolResult : Type :=
| TextContent (documents : list DocumentSummary).

(** [(value || '').substring(0, maxChars)]. *)
Definition truncated (value : TextField) (maxChars : Z)
  : JSError + jsstring :=
  match value with
  | TextAbsent => inr (substring [] 0 maxChars)
  | TextString s => inr (substring (or_else (Some s) []) 0 maxChars)
  | TextOther wording => inl (TypeError wording)
  end.

Section Server.

Variable toLowerCase : jsstring -> jsstring.
Variable U : Upstream.
Variable this : OutlineServer.

Definition bearer : jsstring := lit "Bearer " ++ apiKey this.

Definition info_request (documentId : option jsstring) : InfoRequest :=
  let baseUrl := replace_trailing_slash (instanceUrl this) in
  {| ir_url := baseUrl ++ lit "/api/documents.info";
     ir_authorization := bearer;
     ir_id := documentId |}.

(** Lines 66-83. *)
Definition getDocument (documentId : option jsstring) : M U FullDoc :=
  try_catch
    (response_data_data <- post_info (info_request documentId) ;;
     ret response_data_data)
    (fun error => ret FullDocNull).

(** The object literal of lines 112-117, for a hit whose document is
    [doc]: its fields are evaluated in order, and [text] may throw. *)
Definition build_summary (maxChars : Z) (result : SearchHit) (doc : Document)
  (fullDoc : FullDoc) : JSError + DocumentSummary :=
  match (if FullDoc_truthy fullDoc
         then truncated
                match fullDoc with
                | FullDocObject d => raw_text d
                | _ => TextAbsent
                end maxChars
         else truncated (hit_context result) maxChars) with
  | inl e => inl e
  | inr text =>
      inr {| sum_id := or_else (doc_id doc) [];
             sum_title := or_else (doc_title doc) [];
             sum_text := text;
             sum_url :=
               instanceUrl this ++ lit "/doc/"
               ++ or_else (doc_urlId doc) (or_else (doc_id doc) []) |}
  end.

(** The callback of [map] at lines 109-118: reading [doc.id] of a missing
    document throws before anything is sent. *)
Definition summarise (maxChars : Z) (result : SearchHit)
  : Started U DocumentSummary :=
  match hit_document result with
  | DocumentMissing wording => RejectedAtOnce (TypeError wording)
  | DocumentObject doc =>
      Pending (fullDoc <- getDocument (doc_id doc) ;;
               lift (build_summary maxChars result doc fullDoc))
  end.

Definition search_request (searchTerm : jsstring) (topK : Z)
  : SearchRequest :=
  let baseUrl := replace_trailing_slash (instanceUrl this) in
  {| sr_url := baseUrl ++ lit "/api/documents.search";
     sr_authorization := bearer;
     sr_query := searchTerm;
     sr_limit := topK;
     sr_offset := 0;
     sr_statusFilter := [lit "published"] |}.

(** The [for] loop of lines 93-121, entered with [keywords[i..]] still to
    try and the current value of [documents]. *)
Fixpoint search_loop (topK maxChars : Z) (keywords : list jsstring)
  (documents : list DocumentSummary) : M U (list DocumentSummary) :=
  match keywords with
  | [] => ret documents
  | searchTerm :: later =>
      if (length documents =? 0)%nat then
        response_data_data <- post_search (search_request searchTerm topK) ;;
        match response_data_data with
        | DataArray hits =>
            results <- promise_all (map (summarise maxChars) hits) ;;
            search_loop topK maxChars later (documents ++ results)
        | DataFalsy | DataNotArray =>
            search_loop topK maxChars later documents
        end
      else ret documents
  end.

(** What the [catch] of lines 125-131 throws for the error it caught:
    [axios.isAxiosError(error)] holds of the errors of axios alone. *)
Definition outline_api_error (error : JSError) : JSError :=
  match error with
  | AxiosError response_message message =>
      McpError InternalError
        (lit "Outline API error: "
         ++ or_else response_message message
         ++ lit " (URL: " ++ instanceUrl this ++ lit ")")
  | _ => error
  end.

(** Lines 84-132. *)
Definition searchDocuments (query : jsstring) (topK maxChars : Z)
  : M U (list DocumentSummary) :=
  try_catch
    (let keywords := extractKeywords toLowerCase query in
     search_loop topK maxChars keywords [])
    (fun error => throw (outline_api_error error)).

(** The [try] block of the handler (lines 178-194). *)
Definition search_and_answer (query : jsstring) (top_k max_chars : Z)
  : M U CallToolResult :=
  try_catch
    (documents <- searchDocuments query top_k max_chars ;;
     ret (TextContent documents))
    (fun error =>
       if instanceof_McpError error then throw error
       else throw (McpError InternalError
                     (lit "Failed to search documents: "
                      ++ error_toString error))).

(** The handler of [CallToolRequestSchema] (lines 164-195). *)
Definition call_tool (request : CallToolRequest) : M U CallToolResult :=
  if negb (str_eqb (params_name request) (lit "search_documents")) then
    throw (McpError MethodNotFound
             (lit "Unknown tool: " ++ params_name request))
  else if negb (truthy (params_arguments request))
          || negb (JSType_eqb (typeof (params_arguments request)) TObject)
  then throw (McpError InvalidParams (lit "Arguments must be an object"))
  else
    let args := params_arguments request in
    match get_property args (lit "query") with
    | JSString query =>
        let top_k :=
          match get_property args (lit "top_k") with
          | JSNumber n => n
          | _ => 3%Z
          end in
        let max_chars :=
          match get_property args (lit "max_chars") with
          | JSNumber n => n
          | _ => 4000%Z
          end in
        search_and_answer query top_k max_chars
    | _ => throw (McpError InvalidParams (lit "Query must be a string"))
    end.

End Server.

(** ** The keyword extraction in the specification's words

    Lower-case the query; its tokens are the maximal stretches free of
    white space; a token is dropped when it has at most two characters, is
    a stop word, or has no alphanumeric character.  This second definition
    is only compared with [extractKeywords]. *)

(** Cut at every white-space character... *)
Definition pieces (s : jsstring) : list jsstring :=
  fold_right
    (fun c acc =>
       if is_whitespace c then [] :: acc
       else match acc with
            | w :: ws => (c :: w) :: ws
            | [] => [[c]]
            end)
    [[]] s.

(** ...and keep what lies between two runs. *)
Definition tokens (s : jsstring) : list jsstring :=
  filter (fun w => negb (str_eqb w [])) (pieces s).

Definition spec_dropped (token : jsstring) : bool :=
  (length token <=? 2)%nat
  || includes stopWords token
  || forallb (fun c => negb (is_alnum c)) token.

Definition spec_extractKeywords (toLowerCase : jsstring -> jsstring)
  (query : jsstring) : list jsstring :=
  filter (fun token => negb (spec_dropped token)) (tokens (toLowerCase query)).

(** The same three reasons as propositions. *)
Definition droppable (token : jsstring) : Prop :=
  (length token <= 2)%nat
  \/ In token stopWords
  \/ Forall (fun c => is_alnum c = false) token.

(** ** Reading a trace *)

(** The search requests of a trace, each with its answer. *)
Definition search_attempts (tr : list Event)
  : list (SearchRequest * AxiosResult SearchData) :=
  flat_map (fun ev => match ev with
                      | SearchEvent rq rs => [(rq, rs)]
                      | InfoEvent _ _ => []
                      end) tr.

(** The document requests of a trace, each with its answer. *)
Definition info_attempts (tr : list Event)
  : list (InfoRequest * AxiosResult FullDoc) :=
  flat_map (fun ev => match ev with
                      | InfoEvent rq rs => [(rq, rs)]
                      | SearchEvent _ _ => []
                      end) tr.

(** What [getDocument] makes of the answer to its request. *)
Definition fetched (response : AxiosResult FullDoc) : FullDoc :=
  match response with
  | AxiosOk d => d
  | AxiosFail _ _ => FullDocNull
  end.

(** The hits a search attempt yielded. *)
Definition hits_of (response : AxiosResult SearchData) : list SearchHit :=
  match response with
  | AxiosOk (DataArray hits) => hits
  | _ => []
  end.

(** A hit that has a document. *)
Definition has_document (hit : SearchHit) : Prop :=
  exists doc, hit_document hit = DocumentObject doc.

(** The id that is sent for a hit ([doc.id], line 111); a hit without a
    document sends nothing. *)
Definition hit_id (hit : SearchHit) : option jsstring :=
  match hit_document hit with
  | DocumentObject doc => doc_id doc
  | DocumentMissing _ => None
  end.

(** What the callback makes of a hit and of the answer to its document
    request: a summary, or the error it throws. *)
Definition summary_of (this : OutlineServer) (maxChars : Z)
  (hr : SearchHit * AxiosResult FullDoc) : JSError + DocumentSummary :=
  match hit_document (fst hr) with
  | DocumentMissing wording => inl (TypeError wording)
  | DocumentObject doc =>
      build_summary this maxChars (fst hr) doc (fetched (snd hr))
  end.

(** The same as the outcome of the callback. *)
Definition outcome_of (r : JSError + DocumentSummary)
  : Outcome DocumentSummary :=
  match r with
  | inl e => Thrown e
  | inr d => Returned d
  end.

(** The document request of a hit with its answer, as the trace lists
    it. *)
Definition info_attempt_of (this : OutlineServer)
  (hr : SearchHit * AxiosResult FullDoc)
  : InfoRequest * AxiosResult FullDoc :=
  (info_request this (hit_id (fst hr)), snd hr).

Definition info_event_of (this : OutlineServer)
  (hr : SearchHit * AxiosResult FullDoc) : Event :=
  InfoEvent (fst (info_attempt_of this hr)) (snd (info_attempt_of this hr)).

(** The property a summary's text is cut from (line 115): the document's
    [text] when a document came back, the hit's [context] otherwise. *)
Definition source_field (result : SearchHit) (fullDoc : FullDoc)
  : TextField :=
  match fullDoc with
  | FullDocObject d => raw_text d
  | FullDocNull | FullDocUndefined => hit_context result
  end.

(** A property that is a string, or absent. *)
Definition is_text (value : TextField) : Prop :=
  forall wording, value <> TextOther wording.

(** [value || ''] for such a property. *)
Definition text_of (value : TextField) : jsstring :=
  match value with
  | TextString s => s
  | TextAbsent | TextOther _ => []
  end.

(** An answer that gives the loop nothing: fulfilled, without a hit. *)
Definition without_hits (answer : AxiosResult SearchData) : Prop :=
  exists d, answer = AxiosOk d /\ hits_of answer = [].

(** The trace [tr] is what the wiki answers from state [w]: each recorded
    answer is the wiki's own answer to the recorded request in the state
    the wiki has reached by then, and [w'] is the state it is left in. *)
Fixpoint answered_by (U : Upstream) (w : World U) (tr : list Event)
  (w' : World U) : Prop :=
  match tr with
  | [] => w' = w
  | SearchEvent rq rs :: rest =>
      rs = fst (documents_search U rq w)
      /\ answered_by U (snd (documents_search U rq w)) rest w'
  | InfoEvent rq rs :: rest =>
      rs = fst (documents_info U rq w)
      /\ answered_by U (snd (documents_info U rq w)) rest w'
  end.

(** The event a search attempt stands for, and the attempts for a list of
    keywords with their answers. *)
Definition search_event_of (a : SearchRequest * AxiosResult SearchData)
  : Event :=
  SearchEvent (fst a) (snd a).

Definition attempts_for (this : OutlineServer) (topK : Z)
  (keywords : list jsstring) (answers : list (AxiosResult SearchData))
  : list (SearchRequest * AxiosResult SearchData) :=
  combine (map (fun k => search_request this k topK) keywords) answers.

(** The answer of the last search attempt of a run ([undefined] data
    when there was none). *)
Definition last_answer (answers : list (AxiosResult SearchData))
  : AxiosResult SearchData :=
  last answers (AxiosOk DataFalsy).

(** ** A wiki to run examples against

    Its state counts the requests served.  It knows nothing about [reset],
    three documents about [password?] (the second of which it then fails to
    deliver), and answers [broken] without a [data] array, [down] with
    an error and [malformed] with two hits, the second without a
    document. *)

Definition demo_hit (id urlId context : string) : SearchHit :=
  {| hit_document :=
       DocumentObject
         {| doc_id := Some (lit id);
            doc_title := Some (lit "Account");
            doc_urlId := if String.eqb urlId EmptyString then None
                         else Some (lit urlId) |};
     hit_context := TextString (lit context) |}.

Definition malformed_hits : list SearchHit :=
  [demo_hit "d1" "account-a1" "reset your password";
   {| hit_document :=
        DocumentMissing
          (lit "Cannot read properties of undefined (reading 'id')");
      hit_context := TextAbsent |}].

Definition demo_hits : list SearchHit :=
  [demo_hit "d1" "account-a1" "reset your password";
   demo_hit "d2" "" "password rules";
   demo_hit "d3" "sso-c3" "no password needed"].

Definition demo_wiki : Upstream :=
  {| World := nat;
     documents_search := fun rq n =>
       (if str_eqb (sr_query rq) (lit "reset") then AxiosOk (DataArray [])
        else if str_eqb (sr_query rq) (lit "password?")
             then AxiosOk (DataArray demo_hits)
        else if str_eqb (sr_query rq) (lit "broken") then AxiosOk DataNotArray
        else if str_eqb (sr_query rq) (lit "down")
             then AxiosFail None (lit "Request failed with status code 503")
        else if str_eqb (sr_query rq) (lit "malformed")
             then AxiosOk (DataArray malformed_hits)
        else AxiosOk DataFalsy,
        S n);
     documents_info := fun rq n =>
       (match ir_id rq with
        | Some i =>
            if str_eqb i (lit "d2")
            then AxiosFail (Some (lit "Not found"))
                           (lit "Request failed with status code 404")
            else AxiosOk (FullDocObject
                            {| raw_text := TextString (lit "# Full text of " ++ i) |})
        | None => AxiosOk FullDocUndefined
        end,
        S n) |}.

Definition demo_server : OutlineServer :=
  {| apiKey := lit "secret"; instanceUrl := lit "https://wiki.example.com" |}.

(** The same server configured with a trailing slash. *)
Definition slash_server : OutlineServer :=
  {| apiKey := lit "secret"; instanceUrl := lit "https://wiki.example.com/" |}.

Definition demo_query : jsstring := lit "How do I reset my password?".

(** The example query run against the example wiki from its initial state,
    with the handler's default [top_k] and [max_chars]. *)
Definition demo_run
  : Outcome (list DocumentSummary) * list Event * World demo_wiki :=
  searchDocuments ascii_toLowerCase demo_wiki demo_server demo_query
    3 4000 0%nat.

Definition demo_docs : list DocumentSummary :=
  Eval vm_compute in
    match fst (fst demo_run) with
    | Returned docs => docs
    | Thrown _ => []
    end.

Definition demo_trace : list Event :=
  Eval vm_compute in snd (fst demo_run).

(** A tool call with a [top_k] beyond the advertised maximum and a
    [max_chars] that is not a number. *)
Definition demo_request : CallToolRequest :=
  {| params_name := lit "search_documents";
     params_arguments :=
       JSObject [(lit "query", JSString demo_query);
                 (lit "top_k", JSNumber 500);
                 (lit "max_chars", JSString (lit "all"))] |}.

(** ** The tool list

    The handler of [ListToolsRequestSchema] (lines 134-163) sends no
    request and returns one fixed descriptor. *)

Record NumberSchema : Type := {
  ns_description : jsstring;
  ns_minimum : Z;
  ns_maximum : Z
}.

Record InputSchema : Type := {
  schema_query_description : jsstring;
  schema_top_k : NumberSchema;
  schema_max_chars : NumberSchema;
  schema_required : list jsstring
}.

Record Tool : Type := {
  tool_name : jsstring;
  tool_description : jsstring;
  tool_inputSchema : InputSchema
}.

Definition list_tools : list Tool :=
  [{| tool_name := lit "search_documents";
      tool_description :=
        lit "Search for documents in your Outline wiki instance";
      tool_inputSchema :=
        {| schema_query_description := lit "Search query";
           schema_top_k :=
             {| ns_description :=
                  lit "Number of documents to return (default: 3)";
                ns_minimum := 1;
                ns_maximum := 10 |};
           schema_max_chars :=
             {| ns_description :=
                  lit "Maximum number of characters per document (default: 4000)";
                ns_minimum := 100;
                ns_maximum := 10000 |};
           schema_required := [lit "query"] |} |}].

(** [A-Z]. *)
Definition is_upper (c : code_unit) : bool :=
  ((65 <=? c) && (c <=? 90))%N.

(** A query whose second keyword the example wiki answers with an
    error. *)
Definition down_query : jsstring := lit "server down".

Definition down_run
  : Outcome (list DocumentSummary) * list Event * World demo_wiki :=
  searchDocuments ascii_toLowerCase demo_wiki demo_server down_query
    3 4000 0%nat.

Definition down_error : JSError :=
  Eval vm_compute in
    match fst (fst down_run) with
    | Thrown e => e
    | Returned _ => PlainError []
    end.

Definition down_trace : list Event :=
  Eval vm_compute in snd (fst down_run).

Definition down_request : CallToolRequest :=
  {| params_name := lit "search_documents";
     params_arguments := JSObject [(lit "query", JSString down_query)] |}.

(** What the example wiki answers to the three document requests of the
    example run. *)
Definition demo_responses : list (AxiosResult FullDoc) :=
  Eval vm_compute in map snd (info_attempts demo_trace).

(** A query that the example wiki answers with a hit that has no
    document. *)
Definition malformed_query : jsstring := lit "malformed".

Definition malformed_run
  : Outcome (list DocumentSummary) * list Event * World demo_wiki :=
  searchDocuments ascii_toLowerCase demo_wiki demo_server malformed_query
    3 4000 0%nat.

Definition malformed_trace : list Event :=
  Eval vm_compute in snd (fst malformed_run).

Definition malformed_request : CallToolRequest :=
  {| params_name := lit "search_documents";
     params_arguments := JSObject [(lit "query", JSString malformed_query)] |}.

(** [cur] glued in front of the first piece: what the scan of
    [split_go] holds while it reads on. *)
Definition prepend (cur : jsstring) (ps : list jsstring) : list jsstring :=
  match ps with
  | w :: ws => (cur ++ w) :: ws
  | [] => [cur]
  end.

Definition nonempty (w : jsstring) : bool := negb (str_eqb w []).

(** ** Basic facts *)

Unset Implicit Arguments.

Lemma str_eqb_eq (a b : jsstring) : str_eqb a b = true <-> a = b.
Proof.
  revert b; induction a as [|x a IH]; intros [|y b]; simpl;
    try (split; [discriminate | discriminate]); try tauto.
  rewrite andb_true_iff, N.eqb_eq, IH.
  split; [intros [-> ->]; reflexivity | intros [= -> ->]; auto].
Qed.

Lemma includes_In (arr : list jsstring) (word : jsstring) :
  includes arr word = true <-> In word arr.
Proof.
  unfold includes. rewrite existsb_exists. split.
  - intros (x & Hx & E). apply str_eqb_eq in E. subst; assumption.
  - intros H. exists word. split; [assumption | apply str_eqb_eq; reflexivity].
Qed.

Example split_example :
  split_whitespace (lit " a  b ") = [[]; lit "a"; lit "b"; []].
Proof. reflexivity. Qed.

Example tokens_example : tokens (lit " a  b ") = [lit "a"; lit "b"].
Proof. reflexivity. Qed.

Example extract_example :
  extractKeywords ascii_toLowerCase demo_query = [lit "reset"; lit "password?"].
Proof. reflexivity. Qed.

(** ** extractKeywords against the specification's wording *)

Lemma filter_filter_implied {A} (f g : A -> bool) (l : list A) :
  (forall x, f x = true -> g x = true) ->
  filter f (filter g l) = filter f l.
Proof.
  intros Himp. induction l as [|x l IH]; simpl; [reflexivity|].
  destruct (g x) eqn:Eg; simpl.
  - rewrite IH. reflexivity.
  - destruct (f x) eqn:Ef; [|assumption].
    apply Himp in Ef. congruence.
Qed.

Lemma pieces_cons (c : code_unit) (s : jsstring) :
  pieces (c :: s)
  = if is_whitespace c then [] :: pieces s
    else match pieces s with
         | w :: ws => (c :: w) :: ws
         | [] => [[c]]
         end.
Proof. reflexivity. Qed.

Lemma pieces_not_nil (s : jsstring) : pieces s <> [].
Proof.
  induction s as [|c s IH]; [discriminate|].
  rewrite pieces_cons. destruct (is_whitespace c); [discriminate|].
  destruct (pieces s); discriminate.
Qed.

(** The scan and the cut agree on every piece that is not empty. *)
Lemma split_go_pieces (s : jsstring) :
  forall (in_ws : bool) (cur : jsstring),
    (in_ws = true -> cur = []) ->
    filter nonempty (split_go in_ws cur s)
    = filter nonempty (prepend cur (pieces s)).
Proof.
  induction s as [|c s IH]; intros in_ws cur Hcur.
  - simpl. rewrite app_nil_r. reflexivity.
  - simpl split_go. rewrite pieces_cons.
    destruct (is_whitespace c) eqn:Ews.
    + assert (Hrest : filter nonempty (split_go true [] s)
                      = filter nonempty (pieces s)).
      { rewrite (IH true []) by reflexivity.
        unfold prepend. destruct (pieces s); reflexivity. }
      destruct in_ws.
      * rewrite (Hcur eq_refl). simpl. exact Hrest.
      * simpl. rewrite app_nil_r, Hrest. reflexivity.
    + rewrite (IH false (cur ++ [c])) by discriminate.
      pose proof (pieces_not_nil s) as Hne.
      destruct (pieces s) as [|w ws]; [contradiction|].
      simpl. rewrite <- app_assoc. reflexivity.
Qed.

Lemma split_whitespace_tokens (s : jsstring) :
  filter nonempty (split_whitespace s) = tokens s.
Proof.
  unfold split_whitespace, tokens.
  rewrite (split_go_pieces s false []) by discriminate.
  unfold prepend. pose proof (pieces_not_nil s) as Hne.
  destruct (pieces s); [contradiction | reflexivity].
Qed.

Lemma significant_nonempty (w : jsstring) :
  significant w = true -> nonempty w = true.
Proof. destruct w; [discriminate | reflexivity]. Qed.

Lemma significant_spec (w : jsstring) :
  significant w = negb (spec_dropped w).
Proof.
  unfold significant, spec_dropped.
  rewrite !negb_orb, Nat.ltb_antisym.
  destruct w as [|c w]; reflexivity.
Qed.

(** C4.  For every query, [extractKeywords] returns exactly the tokens of
    the lower-cased query (its maximal stretches without white space) that
    are not dropped, where a token is dropped when it has at most two
    characters, is one of the stop words, or has no alphanumeric
    character; the survivors keep their order and their repetitions
    (the result is a [filter] of the token sequence). *)
Theorem extractKeywords_meets_spec :
  forall (toLowerCase : jsstring -> jsstring) (query : jsstring),
    extractKeywords toLowerCase query
    = spec_extractKeywords toLowerCase query.
Proof.
  intros toLowerCase query.
  unfold extractKeywords, spec_extractKeywords.
  rewrite <- split_whitespace_tokens.
  rewrite (filter_filter_implied _ nonempty).
  - apply filter_ext. intros w. rewrite significant_spec. reflexivity.
  - intros w Hw. apply significant_nonempty.
    rewrite significant_spec. exact Hw.
Qed.

(** ** Running the server's methods *)

Lemma answered_by_app (U : Upstream) (t1 t2 : list Event) :
  forall w w2 : World U,
    answered_by U w (t1 ++ t2) w2
    <-> exists w1, answered_by U w t1 w1 /\ answered_by U w1 t2 w2.
Proof.
  induction t1 as [|[rq rs | rq rs] t1 IH]; intros w w2; simpl.
  - split.
    + intros H. exists w. split; [reflexivity | exact H].
    + intros (w1 & -> & H). exact H.
  - rewrite IH. split.
    + intros (Hrs & w1 & H1 & H2). exists w1. repeat split; assumption.
    + intros (w1 & (Hrs & H1) & H2). split; [exact Hrs|]. exists w1.
      split; assumption.
  - rewrite IH. split.
    + intros (Hrs & w1 & H1 & H2). exists w1. repeat split; assumption.
    + intros (w1 & (Hrs & H1) & H2). split; [exact Hrs|]. exists w1.
      split; assumption.
Qed.

Lemma all_values_length {B} (outcomes : list (Outcome B)) (values : list B) :
  all_values outcomes = Returned values -> length values = length outcomes.
Proof.
  revert values. induction outcomes as [|[b | e] outcomes IH];
    intros values H; simpl in H.
  - injection H as <-. reflexivity.
  - destruct (all_values outcomes) as [bs | e]; [|discriminate].
    injection H as <-. simpl. f_equal. apply IH. reflexivity.
  - discriminate.
Qed.

Section Runs.

Variable toLowerCase : jsstring -> jsstring.
Variable U : Upstream.
Variable this : OutlineServer.

(** [getDocument] sends one request and returns, whatever the answer. *)
Lemma getDocument_run (documentId : option jsstring) (w : World U) :
  getDocument U this documentId w
  = (Returned (fetched (fst (documents_info U (info_request this documentId) w))),
     [InfoEvent (info_request this documentId)
                (fst (documents_info U (info_request this documentId) w))],
     snd (documents_info U (info_request this documentId) w)).
Proof.
  unfold getDocument, try_catch, bind, post_info, ret.
  destruct (documents_info U (info_request this documentId) w)
    as [[d | rm m] w1]; reflexivity.
Qed.

(** A callback that is pending ends with what [summary_of] makes of its
    hit and of the wiki's answer. *)
Lemma pending_run (maxChars : Z) (hit : SearchHit) (doc : Document)
  (w : World U) :
  hit_document hit = DocumentObject doc ->
  bind (getDocument U this (doc_id doc))
       (fun fullDoc => lift (build_summary this maxChars hit doc fullDoc)) w
  = (outcome_of
       (summary_of this maxChars
          (hit, fst (documents_info U (info_request this (hit_id hit)) w))),
     [info_event_of this
        (hit, fst (documents_info U (info_request this (hit_id hit)) w))],
     snd (documents_info U (info_request this (hit_id hit)) w)).
Proof.
  intros Hdoc. unfold bind. rewrite getDocument_run.
  unfold summary_of, info_event_of, info_attempt_of, hit_id. simpl.
  rewrite Hdoc.
  destruct (build_summary this maxChars hit doc
              (fetched (fst (documents_info U
                               (info_request this (doc_id doc)) w))));
    reflexivity.
Qed.

(** *** The fan-out over the hits of one answer *)

Lemma summary_of_error (maxChars : Z) (hr : SearchHit * AxiosResult FullDoc)
  (e : JSError) :
  summary_of this maxChars hr = inl e -> exists wording, e = TypeError wording.
Proof.
  unfold summary_of, build_summary, truncated.
  destruct (hit_document (fst hr)) as [wording | doc].
  - intros [= <-]. exists wording. reflexivity.
  - destruct (FullDoc_truthy (fetched (snd hr)));
      match goal with
      | |- context [match ?v with TextAbsent => _ | _ => _ end] =>
          destruct v as [| s | wording]
      end; try discriminate;
      intros [= <-]; exists wording; reflexivity.
Qed.

Lemma first_rejected_is_TypeError (maxChars : Z) (hits : list SearchHit)
  (e : JSError) :
  first_rejected_at_once (map (summarise U this maxChars) hits) = Some e ->
  exists wording, e = TypeError wording.
Proof.
  induction hits as [|hit hits IH]; simpl; [discriminate|].
  unfold summarise at 1.
  destruct (hit_document hit) as [wording | doc]; simpl.
  - intros [= <-]. exists wording. reflexivity.
  - exact IH.
Qed.

Lemma none_rejected_complete (maxChars : Z) (hits : list SearchHit) :
  first_rejected_at_once (map (summarise U this maxChars) hits) = None
  <-> Forall has_document hits.
Proof.
  induction hits as [|hit hits IH]; simpl.
  - split; [constructor | reflexivity].
  - unfold summarise at 1.
    destruct (hit_document hit) as [wording | doc] eqn:Hdoc; simpl.
    + split; [discriminate|].
      intros H. inversion H as [|x l (doc & Hd) _]; subst.
      congruence.
    + rewrite IH. split.
      * intros H. constructor; [exists doc; exact Hdoc | exact H].
      * intros H. inversion H; assumption.
Qed.

(** Every hit that has a document gets its request, in order, whatever the
    other hits are. *)
Lemma settle_trace (maxChars : Z) (hits : list SearchHit) :
  forall w : World U,
  exists (fetches : list (SearchHit * AxiosResult FullDoc)),
    snd (fst (settle (map (summarise U this maxChars) hits) w))
    = map (info_event_of this) fetches
    /\ answered_by U w (map (info_event_of this) fetches)
         (snd (settle (map (summarise U this maxChars) hits) w))
    /\ (length fetches <= length hits)%nat
    /\ length (fst (fst (settle (map (summarise U this maxChars) hits) w)))
       = length hits.
Proof.
  induction hits as [|hit hits IH]; intros w.
  - exists []. simpl. repeat split; constructor.
  - simpl map. unfold summarise at 1 3 5.
    destruct (hit_document hit) as [wording | doc] eqn:Hdoc.
    + destruct (IH w) as (fetches & Htr & Hans & Hlen & Hout).
      exists fetches. simpl.
      destruct (settle (map (summarise U this maxChars) hits) w)
        as [[os tr] w'].
      simpl in *. repeat split; try assumption; lia.
    + simpl settle. rewrite (pending_run maxChars hit doc w Hdoc).
      set (r := fst (documents_info U (info_request this (hit_id hit)) w)).
      set (w1 := snd (documents_info U (info_request this (hit_id hit)) w)).
      destruct (IH w1) as (fetches & Htr & Hans & Hlen & Hout).
      exists ((hit, r) :: fetches).
      destruct (settle (map (summarise U this maxChars) hits) w1)
        as [[os tr] w'].
      simpl in *. subst tr. repeat split; try assumption; try lia.
Qed.

(** When every hit has a document, the pending callbacks are all of them:
    one request per hit, and one outcome per hit, made from the wiki's
    answer to its request. *)
Lemma settle_complete (maxChars : Z) (hits : list SearchHit) :
  Forall has_document hits ->
  forall w : World U,
  exists (responses : list (AxiosResult FullDoc)) (w' : World U),
    length responses = length hits
    /\ answered_by U w (map (info_event_of this) (combine hits responses)) w'
    /\ settle (map (summarise U this maxChars) hits) w
       = (map (fun hr => outcome_of (summary_of this maxChars hr))
              (combine hits responses),
          map (info_event_of this) (combine hits responses),
          w').
Proof.
  induction 1 as [|hit hits (doc & Hdoc) _ IH]; intros w.
  - exists [], w. repeat split.
  - set (r := fst (documents_info U (info_request this (hit_id hit)) w)).
    set (w1 := snd (documents_info U (info_request this (hit_id hit)) w)).
    destruct (IH w1) as (rs & w' & Hlen & Hans & Hrun).
    exists (r :: rs), w'.
    split; [simpl; congruence|]. split.
    + simpl. split; [reflexivity | exact Hans].
    + simpl map. unfold summarise at 1. rewrite Hdoc. simpl settle.
      rewrite (pending_run maxChars hit doc w Hdoc).
      fold r w1. rewrite Hrun. reflexivity.
Qed.

Lemma all_values_summaries (maxChars : Z)
  (l : list (SearchHit * AxiosResult FullDoc)) :
  forall docs,
    all_values (map (fun hr => outcome_of (summary_of this maxChars hr)) l)
    = Returned docs ->
    Forall2 (fun hr d => summary_of this maxChars hr = inr d) l docs.
Proof.
  induction l as [|hr l IH]; intros docs H; simpl in H.
  - injection H as <-. constructor.
  - destruct (summary_of this maxChars hr) as [e | d] eqn:Hs; simpl in H;
      [discriminate|].
    match type of H with
    | context [all_values ?x] => destruct (all_values x) as [ds | e] eqn:Hrest
    end; [|discriminate].
    injection H as <-. constructor; [exact Hs | apply IH; reflexivity].
Qed.

Lemma all_values_error (maxChars : Z)
  (l : list (SearchHit * AxiosResult FullDoc)) (e : JSError) :
  all_values (map (fun hr => outcome_of (summary_of this maxChars hr)) l)
  = Thrown e ->
  exists wording, e = TypeError wording.
Proof.
  induction l as [|hr l IH]; simpl; [discriminate|].
  destruct (summary_of this maxChars hr) as [e0 | d] eqn:Hs; simpl.
  - intros [= <-]. exact (summary_of_error maxChars hr e0 Hs).
  - match goal with
    | |- context [all_values ?x] => destruct (all_values x) as [ds | e1]
    end; [discriminate|].
    intros [= <-]. apply IH. reflexivity.
Qed.

(** What [Promise.all] over the callbacks comes to. *)
Lemma promise_all_run (maxChars : Z) (hits : list SearchHit) (w : World U)
  o tr w' :
  promise_all (map (summarise U this maxChars) hits) w = (o, tr, w') ->
  (exists fetches : list (SearchHit * AxiosResult FullDoc),
      tr = map (info_event_of this) fetches
      /\ (length fetches <= length hits)%nat)
  /\ answered_by U w tr w'
  /\ match o with
     | Returned docs =>
         Forall has_document hits
         /\ exists responses : list (AxiosResult FullDoc),
             length responses = length hits
             /\ tr = map (info_event_of this) (combine hits responses)
             /\ Forall2 (fun hr d => summary_of this maxChars hr = inr d)
                        (combine hits responses) docs
     | Thrown e => exists wording, e = TypeError wording
     end.
Proof.
  unfold promise_all. intros Hrun.
  destruct (settle_trace maxChars hits w) as (fetches & Htr & Hans & Hlen & _).
  destruct (settle (map (summarise U this maxChars) hits) w)
    as [[os tr0] w0] eqn:Hsettle.
  simpl in Htr, Hans. injection Hrun as Ho <- <-.
  split; [exists fetches; split; assumption|].
  split; [rewrite Htr; exact Hans|].
  destruct (first_rejected_at_once (map (summarise U this maxChars) hits))
    as [e0 |] eqn:Hfirst.
  - subst o. exact (first_rejected_is_TypeError maxChars hits e0 Hfirst).
  - apply none_rejected_complete in Hfirst.
    destruct (settle_complete maxChars hits Hfirst w)
      as (rs & w2 & Hrs & _ & Hrun').
    rewrite Hsettle in Hrun'. injection Hrun' as -> -> ->.
    destruct o as [docs | e].
    + split; [exact Hfirst|]. exists rs.
      split; [exact Hrs|]. split; [reflexivity|].
      apply all_values_summaries. exact Ho.
    + exact (all_values_error maxChars _ e Ho).
Qed.

(** *** The loop, one keyword at a time *)

Lemma search_attempts_app (tr1 tr2 : list Event) :
  search_attempts (tr1 ++ tr2) = search_attempts tr1 ++ search_attempts tr2.
Proof. apply flat_map_app. Qed.

Lemma info_attempts_app (tr1 tr2 : list Event) :
  info_attempts (tr1 ++ tr2) = info_attempts tr1 ++ info_attempts tr2.
Proof. apply flat_map_app. Qed.

Lemma search_attempts_info (l : list (SearchHit * AxiosResult FullDoc)) :
  search_attempts (map (info_event_of this) l) = [].
Proof. induction l as [|hr l IH]; simpl; auto. Qed.

Lemma info_attempts_info (l : list (SearchHit * AxiosResult FullDoc)) :
  info_attempts (map (info_event_of this) l) = map (info_attempt_of this) l.
Proof. induction l as [|hr l IH]; simpl; [reflexivity | now rewrite IH]. Qed.

Lemma search_attempts_events
  (attempts : list (SearchRequest * AxiosResult SearchData)) :
  search_attempts (map search_event_of attempts) = attempts
  /\ info_attempts (map search_event_of attempts) = [].
Proof.
  induction attempts as [|[rq rs] l [IH1 IH2]]; simpl; [split; reflexivity|].
  split; [f_equal; exact IH1 | exact IH2].
Qed.

Lemma Forall2_length_summaries (maxChars : Z)
  (hits : list SearchHit) (responses : list (AxiosResult FullDoc))
  (docs : list DocumentSummary) :
  length responses = length hits ->
  Forall2 (fun hr d => summary_of this maxChars hr = inr d)
          (combine hits responses) docs ->
  length docs = length hits.
Proof.
  intros Hlen H. apply Forall2_length in H.
  rewrite length_combine in H. lia.
Qed.

(** Once [documents] holds something the loop is over. *)
Lemma search_loop_nonempty (topK maxChars : Z) (keywords : list jsstring)
  (documents : list DocumentSummary) (w : World U) :
  documents <> [] ->
  search_loop U this topK maxChars keywords documents w
  = (Returned documents, [], w).
Proof.
  intros Hne. destruct documents; [contradiction|].
  destruct keywords; reflexivity.
Qed.

(** A rejected search request ends the loop with that error. *)
Lemma search_loop_failed (topK maxChars : Z) (kw : jsstring)
  (later : list jsstring) (w w1 : World U) (rm : option jsstring)
  (m : jsstring) :
  documents_search U (search_request this kw topK) w = (AxiosFail rm m, w1) ->
  search_loop U this topK maxChars (kw :: later) [] w
  = (Thrown (AxiosError rm m),
     [SearchEvent (search_request this kw topK) (AxiosFail rm m)], w1).
Proof.
  intros Hs. simpl. unfold bind, post_search. rewrite Hs. reflexivity.
Qed.

(** An answer without hits leaves the loop where it was, one keyword on. *)
Lemma search_loop_no_hits (topK maxChars : Z) (kw : jsstring)
  (later : list jsstring) (w w1 : World U) (d : SearchData) :
  documents_search U (search_request this kw topK) w = (AxiosOk d, w1) ->
  hits_of (AxiosOk d) = [] ->
  search_loop U this topK maxChars (kw :: later) [] w
  = match search_loop U this topK maxChars later [] w1 with
    | (o, tr, w2) =>
        (o, SearchEvent (search_request this kw topK) (AxiosOk d) :: tr, w2)
    end.
Proof.
  intros Hs Hd. simpl. unfold bind, post_search. rewrite Hs.
  destruct d as [| |hits]; simpl in Hd.
  - destruct (search_loop U this topK maxChars later [] w1) as [[o tr] w2].
    reflexivity.
  - destruct (search_loop U this topK maxChars later [] w1) as [[o tr] w2].
    reflexivity.
  - subst hits. simpl.
    destruct (search_loop U this topK maxChars later [] w1) as [[o tr] w2].
    reflexivity.
Qed.

(** An answer with hits ends the loop with what the fan-out over these
    hits comes to. *)
Lemma search_loop_hits (topK maxChars : Z) (kw : jsstring)
  (later : list jsstring) (w w1 : World U) (hits : list SearchHit) :
  documents_search U (search_request this kw topK) w
  = (AxiosOk (DataArray hits), w1) ->
  hits <> [] ->
  search_loop U this topK maxChars (kw :: later) [] w
  = match promise_all (map (summarise U this maxChars) hits) w1 with
    | (o, tr, w2) =>
        (o,
         SearchEvent (search_request this kw topK) (AxiosOk (DataArray hits))
         :: tr,
         w2)
    end.
Proof.
  intros Hs Hne. simpl. unfold bind, post_search. rewrite Hs.
  destruct (promise_all (map (summarise U this maxChars) hits) w1)
    as [[[docs | e] tr] w2] eqn:Hall; [|reflexivity].
  destruct (promise_all_run maxChars hits w1 _ _ _ Hall)
    as (_ & _ & _ & rs & Hrs & _ & Hdocs).
  rewrite search_loop_nonempty.
  - simpl. rewrite app_nil_r. reflexivity.
  - pose proof (Forall2_length_summaries maxChars hits rs docs Hrs Hdocs).
    destruct hits; [contradiction|]. destruct docs; discriminate.
Qed.

(** The loop passes over keywords that the wiki answers without hits. *)
Lemma search_loop_skip (topK maxChars : Z) (rest : list jsstring) :
  forall (skipped : list jsstring) (answers : list (AxiosResult SearchData))
         (w w0 : World U),
    length answers = length skipped ->
    Forall without_hits answers ->
    answered_by U w
      (map search_event_of (attempts_for this topK skipped answers)) w0 ->
    search_loop U this topK maxChars (skipped ++ rest) [] w
    = match search_loop U this topK maxChars rest [] w0 with
      | (o, tr, w') =>
          (o,
           map search_event_of (attempts_for this topK skipped answers) ++ tr,
           w')
      end.
Proof.
  induction skipped as [|kw skipped IH]; intros [|a answers] w w0 Hlen Hall Hans;
    simpl in Hlen; try discriminate.
  - simpl in Hans. subst w0. simpl.
    destruct (search_loop U this topK maxChars rest [] w) as [[o tr] w'].
    reflexivity.
  - inversion Hall as [|x l (d & -> & Hd) Hall']; subst.
    simpl in Hans. destruct Hans as [Ha Hans].
    simpl app.
    rewrite (search_loop_no_hits topK maxChars kw (skipped ++ rest) w
               (snd (documents_search U (search_request this kw topK) w)) d);
      [| rewrite Ha; apply surjective_pairing | exact Hd].
    rewrite (IH answers _ w0); [| congruence | exact Hall' | exact Hans].
    destruct (search_loop U this topK maxChars rest [] w0) as [[o tr] w'].
    reflexivity.
Qed.

(** *** The loop as a whole

    A run of the loop tries a prefix [tried] of the keywords, one search
    request each, and then sends the document requests of the last answer;
    the trace is what the wiki answers; every attempt but the last was
    fulfilled without hits; the run returns the summaries of the hits of
    the last answer, and it throws when the last search request was
    rejected or when a callback of the fan-out throws a [TypeError]. *)
Lemma search_loop_runs (topK maxChars : Z) :
  forall (keywords : list jsstring) (w : World U) o tr w',
    search_loop U this topK maxChars keywords [] w = (o, tr, w') ->
    exists (tried later : list jsstring)
           (answers : list (AxiosResult SearchData))
           (fetches : list (SearchHit * AxiosResult FullDoc)),
      keywords = tried ++ later
      /\ length answers = length tried
      /\ tr = map search_event_of (attempts_for this topK tried answers)
              ++ map (info_event_of this) fetches
      /\ answered_by U w tr w'
      /\ Forall without_hits (removelast answers)
      /\ (length fetches <= length (hits_of (last_answer answers)))%nat
      /\ match o with
         | Returned docs =>
             (hits_of (last_answer answers) = [] -> later = [])
             /\ Forall has_document (hits_of (last_answer answers))
             /\ exists responses : list (AxiosResult FullDoc),
                 length responses = length (hits_of (last_answer answers))
                 /\ fetches = combine (hits_of (last_answer answers)) responses
                 /\ Forall2 (fun hr d => summary_of this maxChars hr = inr d)
                      (combine (hits_of (last_answer answers)) responses) docs
         | Thrown e =>
             answers <> []
             /\ ((exists rm m,
                     last_answer answers = AxiosFail rm m
                     /\ e = AxiosError rm m
                     /\ fetches = [])
                 \/ (exists wording,
                        e = TypeError wording
                        /\ hits_of (last_answer answers) <> []))
         end.
Proof.
  induction keywords as [|kw rest IH]; intros w o tr w' Hrun.
  - simpl in Hrun. injection Hrun as <- <- <-.
    exists [], [], [], [].
    split; [reflexivity|]. split; [reflexivity|]. split; [reflexivity|].
    split; [reflexivity|]. split; [constructor|]. split; [simpl; lia|].
    split; [reflexivity|]. split; [constructor|].
    exists []. repeat split. constructor.
  - destruct (documents_search U (search_request this kw topK) w)
      as [[d | rm m] w1] eqn:Hs.
    + destruct (hits_of (AxiosOk d)) as [|h hs] eqn:Hh.
      * rewrite (search_loop_no_hits topK maxChars kw rest w w1 d Hs Hh)
          in Hrun.
        destruct (search_loop U this topK maxChars rest [] w1)
          as [[o1 tr1] w2] eqn:Hrest.
        injection Hrun as <- <- <-.
        destruct (IH _ _ _ _ Hrest)
          as (tried & later & answers & fetches & Hk & Hlen & Htr & Hans
              & Hall & Hfetch & Hout).
        exists (kw :: tried), later, (AxiosOk d :: answers), fetches.
        split; [simpl; congruence|].
        split; [simpl; congruence|].
        split; [rewrite Htr; reflexivity|].
        split; [simpl; rewrite Hs; split; [reflexivity | exact Hans]|].
        destruct answers as [|a answers].
        -- split; [constructor|].
           unfold last_answer in *. simpl in *. rewrite Hh.
           split; [exact Hfetch|].
           destruct o1 as [docs | e]; [exact Hout|].
           destruct Hout as (Hne & _). contradiction.
        -- split.
           ++ change (removelast (AxiosOk d :: a :: answers))
                with (AxiosOk d :: removelast (a :: answers)).
              constructor; [exists d; split; [reflexivity | exact Hh] | exact Hall].
           ++ change (last_answer (AxiosOk d :: a :: answers))
                with (last_answer (a :: answers)).
              split; [exact Hfetch|].
              destruct o1 as [docs | e]; [exact Hout|].
              destruct Hout as (_ & Hout). split; [discriminate | exact Hout].
      * assert (Hd : d = DataArray (h :: hs)).
        { destruct d as [| |hits]; simpl in Hh; try discriminate.
          congruence. }
        subst d.
        rewrite (search_loop_hits topK maxChars kw rest w w1 (h :: hs) Hs)
          in Hrun by discriminate.
        destruct (promise_all (map (summarise U this maxChars) (h :: hs)) w1)
          as [[o1 tr1] w2] eqn:Hall.
        injection Hrun as <- <- <-.
        destruct (promise_all_run maxChars (h :: hs) w1 _ _ _ Hall)
          as ((fetches & Htr & Hfetch) & Hans & Hout).
        destruct o1 as [docs | e].
        -- destruct Hout as (Hcomplete & rs & Hrs & Htr' & Hdocs).
           exists [kw], rest, [AxiosOk (DataArray (h :: hs))],
                  (combine (h :: hs) rs).
           split; [reflexivity|]. split; [reflexivity|].
           split; [rewrite Htr'; reflexivity|].
           split; [simpl; rewrite Hs; split; [reflexivity | exact Hans]|].
           split; [constructor|].
           split; [rewrite length_combine; apply Nat.le_min_l|].
           split; [discriminate|]. split; [exact Hcomplete|].
           exists rs. split; [exact Hrs|]. split; [reflexivity | exact Hdocs].
        -- destruct Hout as (wording & ->).
           exists [kw], rest, [AxiosOk (DataArray (h :: hs))], fetches.
           split; [reflexivity|]. split; [reflexivity|].
           split; [rewrite Htr; reflexivity|].
           split; [simpl; rewrite Hs; split; [reflexivity | exact Hans]|].
           split; [constructor|]. split; [exact Hfetch|].
           split; [discriminate|]. right. exists wording.
           split; [reflexivity | discriminate].
    + rewrite (search_loop_failed topK maxChars kw rest w w1 rm m Hs) in Hrun.
      injection Hrun as <- <- <-.
      exists [kw], rest, [AxiosFail rm m], [].
      split; [reflexivity|]. split; [reflexivity|]. split; [reflexivity|].
      split; [simpl; rewrite Hs; split; reflexivity|].
      split; [constructor|]. split; [simpl; lia|].
      split; [discriminate|]. left. exists rm, m. repeat split.
Qed.

(** *** searchDocuments *)

(** [searchDocuments] is the loop over the extracted keywords; its [catch]
    sends no request and only rewrites the error. *)
Lemma searchDocuments_run (query : jsstring) (topK maxChars : Z)
  (w : World U) :
  searchDocuments toLowerCase U this query topK maxChars w
  = match search_loop U this topK maxChars
            (extractKeywords toLowerCase query) [] w with
    | (Returned docs, tr, w') => (Returned docs, tr, w')
    | (Thrown e, tr, w') => (Thrown (outline_api_error this e), tr, w')
    end.
Proof.
  unfold searchDocuments, try_catch, throw.
  destruct (search_loop U this topK maxChars
              (extractKeywords toLowerCase query) [] w) as [[[docs | e] tr] w'].
  - reflexivity.
  - rewrite app_nil_r. reflexivity.
Qed.

Lemma attempts_of_trace
  (attempts : list (SearchRequest * AxiosResult SearchData))
  (fetches : list (SearchHit * AxiosResult FullDoc)) :
  search_attempts (map search_event_of attempts
                   ++ map (info_event_of this) fetches) = attempts
  /\ info_attempts (map search_event_of attempts
                    ++ map (info_event_of this) fetches)
     = map (info_attempt_of this) fetches.
Proof.
  rewrite search_attempts_app, info_attempts_app.
  destruct (search_attempts_events attempts) as [-> ->].
  rewrite search_attempts_info, info_attempts_info, app_nil_r.
  split; reflexivity.
Qed.

(** The shape of every run of [searchDocuments]. *)
Lemma searchDocuments_structure (query : jsstring) (topK maxChars : Z)
  (w : World U) o tr w' :
  searchDocuments toLowerCase U this query topK maxChars w = (o, tr, w') ->
  exists (tried later : list jsstring)
         (answers : list (AxiosResult SearchData))
         (fetches : list (SearchHit * AxiosResult FullDoc)),
    extractKeywords toLowerCase query = tried ++ later
    /\ length answers = length tried
    /\ tr = map search_event_of (attempts_for this topK tried answers)
            ++ map (info_event_of this) fetches
    /\ search_attempts tr = attempts_for this topK tried answers
    /\ info_attempts tr = map (info_attempt_of this) fetches
    /\ answered_by U w tr w'
    /\ Forall without_hits (removelast answers)
    /\ (length fetches <= length (hits_of (last_answer answers)))%nat
    /\ match o with
       | Returned docs =>
           (hits_of (last_answer answers) = [] -> later = [])
           /\ Forall has_document (hits_of (last_answer answers))
           /\ exists responses : list (AxiosResult FullDoc),
               length responses = length (hits_of (last_answer answers))
               /\ fetches = combine (hits_of (last_answer answers)) responses
               /\ Forall2 (fun hr d => summary_of this maxChars hr = inr d)
                    (combine (hits_of (last_answer answers)) responses) docs
       | Thrown e =>
           answers <> []
           /\ ((exists rm m,
                   last_answer answers = AxiosFail rm m
                   /\ e = outline_api_error this (AxiosError rm m)
                   /\ fetches = [])
               \/ (exists wording,
                      e = TypeError wording
                      /\ hits_of (last_answer answers) <> []))
       end.
Proof.
  rewrite searchDocuments_run.
  destruct (search_loop U this topK maxChars
              (extractKeywords toLowerCase query) [] w)
    as [[o0 tr0] w0] eqn:Hloop.
  intros Hrun.
  destruct (search_loop_runs topK maxChars _ _ _ _ _ Hloop)
    as (tried & later & answers & fetches & Hk & Hlen & Htr & Hans & Hall
        & Hfetch & Hout).
  assert (Heq : tr0 = tr /\ w0 = w') by (destruct o0; split; congruence).
  destruct Heq as [-> ->].
  exists tried, later, answers, fetches.
  split; [exact Hk|]. split; [exact Hlen|]. split; [exact Htr|].
  split; [rewrite Htr; apply attempts_of_trace|].
  split; [rewrite Htr; apply attempts_of_trace|].
  split; [exact Hans|]. split; [exact Hall|]. split; [exact Hfetch|].
  destruct o0 as [docs | e]; injection Hrun as <-; [exact Hout|].
  destruct Hout as (Hne & [(rm & m & Hlast & -> & Hf) | (wording & -> & Hh)]).
  - split; [exact Hne|]. left. exists rm, m. repeat split; assumption.
  - split; [exact Hne|]. right. exists wording. split; [reflexivity | exact Hh].
Qed.

Lemma summary_of_fields (maxChars : Z) (hit : SearchHit)
  (response : AxiosResult FullDoc) (d : DocumentSummary) :
  summary_of this maxChars (hit, response) = inr d ->
  exists doc,
    hit_document hit = DocumentObject doc
    /\ is_text (source_field hit (fetched response))
    /\ d = {| sum_id := or_else (doc_id doc) [];
              sum_title := or_else (doc_title doc) [];
              sum_text :=
                substring (text_of (source_field hit (fetched response)))
                  0 maxChars;
              sum_url :=
                instanceUrl this ++ lit "/doc/"
                ++ or_else (doc_urlId doc) (or_else (doc_id doc) []) |}.
Proof.
  unfold summary_of, build_summary, source_field, truncated. simpl.
  destruct (hit_document hit) as [wording | doc]; [discriminate|].
  intros H. exists doc. split; [reflexivity|].
  destruct (fetched response) as [| |raw]; simpl in *.
  - destruct (hit_context hit) as [|[|c s]|wording]; try discriminate;
      injection H as Hd; rewrite <- Hd; split; try reflexivity;
      intros wd; discriminate.
  - destruct (hit_context hit) as [|[|c s]|wording]; try discriminate;
      injection H as Hd; rewrite <- Hd; split; try reflexivity;
      intros wd; discriminate.
  - destruct (raw_text raw) as [|[|c s]|wording]; try discriminate;
      injection H as Hd; rewrite <- Hd; split; try reflexivity;
      intros wd; discriminate.
Qed.

Lemma summary_of_text (maxChars : Z) (hit : SearchHit) (doc : Document)
  (response : AxiosResult FullDoc) :
  hit_document hit = DocumentObject doc ->
  is_text (source_field hit (fetched response)) ->
  exists d,
    summary_of this maxChars (hit, response) = inr d
    /\ sum_text d
       = substring (text_of (source_field hit (fetched response))) 0 maxChars.
Proof.
  intros Hdoc Htext.
  destruct (summary_of this maxChars (hit, response)) as [e | d] eqn:Hs.
  - exfalso. revert Hs Htext.
    unfold summary_of, build_summary, source_field, truncated, is_text.
    simpl. rewrite Hdoc.
    destruct (fetched response) as [| |raw]; simpl;
      match goal with
      | |- context [match ?v with TextAbsent => _ | _ => _ end] =>
          destruct v as [| s | wording]
      end; try discriminate; intros _ Hno; exact (Hno wording eq_refl).
  - exists d. split; [reflexivity|].
    destruct (summary_of_fields maxChars hit response d Hs)
      as (doc' & _ & _ & ->).
    reflexivity.
Qed.

(** *** Runs read off the wiki's answers *)

Lemma Forall_combine_fst {A B} (P : A -> Prop) (l : list A) (l' : list B) :
  Forall P l -> Forall (fun p => P (fst p)) (combine l l').
Proof.
  intros H. revert l'. induction H as [|x l Hx _ IH]; intros [|y l'];
    simpl; constructor; auto.
Qed.

(** The fan-out over hits that all have a document, given the wiki's
    answers to their requests. *)
Lemma settle_answered (maxChars : Z) :
  forall (hits : list SearchHit) (responses : list (AxiosResult FullDoc))
         (w w2 : World U),
    Forall has_document hits ->
    length responses = length hits ->
    answered_by U w (map (info_event_of this) (combine hits responses)) w2 ->
    settle (map (summarise U this maxChars) hits) w
    = (map (fun hr => outcome_of (summary_of this maxChars hr))
           (combine hits responses),
       map (info_event_of this) (combine hits responses),
       w2).
Proof.
  induction hits as [|hit hits IH]; intros [|r rs] w w2 Hdoc Hlen Hans;
    simpl in Hlen; try discriminate.
  - simpl in *. subst w2. reflexivity.
  - inversion Hdoc as [|x l (doc & Hd) Hdoc']; subst.
    simpl in Hans. destruct Hans as [Hr Hans].
    simpl map. unfold summarise at 1. rewrite Hd. simpl settle.
    rewrite (pending_run maxChars hit doc w Hd).
    rewrite <- Hr.
    rewrite (IH rs _ w2 Hdoc'); [reflexivity | congruence | exact Hans].
Qed.

Lemma all_values_returned (maxChars : Z)
  (l : list (SearchHit * AxiosResult FullDoc)) :
  Forall (fun hr => has_document (fst hr)
                    /\ is_text (source_field (fst hr) (fetched (snd hr)))) l ->
  exists docs,
    all_values (map (fun hr => outcome_of (summary_of this maxChars hr)) l)
    = Returned docs
    /\ Forall2 (fun hr d => summary_of this maxChars hr = inr d) l docs.
Proof.
  induction 1 as [|[hit r] l ((doc & Hdoc) & Htext) _ (docs & Hall & Hdocs)].
  - exists []. split; [reflexivity | constructor].
  - simpl in Hdoc, Htext.
    destruct (summary_of_text maxChars hit doc r Hdoc Htext) as (d & Hs & _).
    exists (d :: docs). simpl. rewrite Hs. simpl. rewrite Hall.
    split; [reflexivity|]. constructor; assumption.
Qed.

Lemma Forall2_combine_fst {A B C} (R : A * B -> C -> Prop)
  (Q : A -> C -> Prop) :
  (forall a b c, R (a, b) c -> Q a c) ->
  forall (l : list A) (l' : list B) (l'' : list C),
    length l' = length l ->
    Forall2 R (combine l l') l'' ->
    Forall2 Q l l''.
Proof.
  intros HRQ. induction l as [|x l IH]; intros [|y l'] l'' Hlen H;
    simpl in *; try discriminate; inversion H; subst; constructor.
  - eapply HRQ; eassumption.
  - eapply IH; [|eassumption]. congruence.
Qed.

Lemma Forall2_combine_nth {A B C} (R : A * B -> C -> Prop) :
  forall (l : list A) (l' : list B) (l'' : list C) (i : nat) (a : A) (b : B),
    Forall2 R (combine l l') l'' ->
    nth_error l i = Some a ->
    nth_error l' i = Some b ->
    exists c, nth_error l'' i = Some c /\ R (a, b) c.
Proof.
  induction l as [|x l IH]; intros [|y l'] l'' [|i] a b H Ha Hb;
    simpl in *; try discriminate.
  - injection Ha as ->. injection Hb as ->.
    inversion H; subst. eexists. split; [reflexivity | assumption].
  - inversion H; subst. simpl. eapply IH; eassumption.
Qed.

(** The run on a query whose search is answered with hits that all have a
    document, after answers without hits for the keywords before it. *)
Lemma searchDocuments_with_hits (query : jsstring) (topK maxChars : Z)
  (skipped : list jsstring) (kw : jsstring) (later : list jsstring)
  (answers : list (AxiosResult SearchData)) (w w0 w1 w2 : World U)
  (hits : list SearchHit) (responses : list (AxiosResult FullDoc)) :
  extractKeywords toLowerCase query = skipped ++ kw :: later ->
  length answers = length skipped ->
  Forall without_hits answers ->
  answered_by U w
    (map search_event_of (attempts_for this topK skipped answers)) w0 ->
  documents_search U (search_request this kw topK) w0
  = (AxiosOk (DataArray hits), w1) ->
  hits <> [] ->
  Forall has_document hits ->
  length responses = length hits ->
  answered_by U w1 (map (info_event_of this) (combine hits responses)) w2 ->
  searchDocuments toLowerCase U this query topK maxChars w
  = (all_values (map (fun hr => outcome_of (summary_of this maxChars hr))
                     (combine hits responses)),
     map search_event_of (attempts_for this topK skipped answers)
     ++ SearchEvent (search_request this kw topK) (AxiosOk (DataArray hits))
        :: map (info_event_of this) (combine hits responses),
     w2).
Proof.
  intros Hk Hlen Hall Hans Hs Hne Hdoc Hrs Hfetch.
  rewrite searchDocuments_run, Hk.
  rewrite (search_loop_skip topK maxChars (kw :: later) skipped answers w w0
             Hlen Hall Hans).
  rewrite (search_loop_hits topK maxChars kw later w0 w1 hits Hs Hne).
  unfold promise_all.
  rewrite (settle_answered maxChars hits responses w1 w2 Hdoc Hrs Hfetch).
  rewrite (proj2 (none_rejected_complete maxChars hits) Hdoc).
  destruct (all_values (map (fun hr => outcome_of (summary_of this maxChars hr))
                            (combine hits responses))) as [docs | e] eqn:Hv.
  - reflexivity.
  - destruct (all_values_error maxChars _ e Hv) as (wording & ->).
    reflexivity.
Qed.

(** On such hits the run returns as soon as no text is cut from a value
    that is not a string: one summary per hit, each made by the callback
    from its hit and the answer to its request. *)
Lemma searchDocuments_returns (query : jsstring) (topK maxChars : Z)
  (skipped : list jsstring) (kw : jsstring) (later : list jsstring)
  (answers : list (AxiosResult SearchData)) (w w0 w1 w2 : World U)
  (hits : list SearchHit) (responses : list (AxiosResult FullDoc)) :
  extractKeywords toLowerCase query = skipped ++ kw :: later ->
  length answers = length skipped ->
  Forall without_hits answers ->
  answered_by U w
    (map search_event_of (attempts_for this topK skipped answers)) w0 ->
  documents_search U (search_request this kw topK) w0
  = (AxiosOk (DataArray hits), w1) ->
  hits <> [] ->
  Forall has_document hits ->
  length responses = length hits ->
  answered_by U w1 (map (info_event_of this) (combine hits responses)) w2 ->
  Forall (fun hr => is_text (source_field (fst hr) (fetched (snd hr))))
         (combine hits responses) ->
  exists docs : list DocumentSummary,
    searchDocuments toLowerCase U this query topK maxChars w
    = (Returned docs,
       map search_event_of (attempts_for this topK skipped answers)
       ++ SearchEvent (search_request this kw topK) (AxiosOk (DataArray hits))
          :: map (info_event_of this) (combine hits responses),
       w2)
    /\ Forall2 (fun hr d => summary_of this maxChars hr = inr d)
         (combine hits responses) docs.
Proof.
  intros Hk Hlen Hall Hans Hs Hne Hdoc Hrs Hfetch Htext.
  rewrite (searchDocuments_with_hits query topK maxChars skipped kw later
             answers w w0 w1 w2 hits responses Hk Hlen Hall Hans Hs Hne
             Hdoc Hrs Hfetch).
  destruct (all_values_returned maxChars (combine hits responses))
    as (docs & -> & Hdocs).
  { pose proof (Forall_combine_fst has_document hits responses Hdoc) as H1.
    rewrite Forall_forall in *. intros hr Hin. split; auto. }
  exists docs. split; [reflexivity | exact Hdocs].
Qed.

(** The run on a query whose search is rejected, after answers without
    hits for the keywords before it. *)
Lemma searchDocuments_rejected (query : jsstring) (topK maxChars : Z)
  (skipped : list jsstring) (kw : jsstring) (later : list jsstring)
  (answers : list (AxiosResult SearchData)) (w w0 w1 : World U)
  (rm : option jsstring) (m : jsstring) :
  extractKeywords toLowerCase query = skipped ++ kw :: later ->
  length answers = length skipped ->
  Forall without_hits answers ->
  answered_by U w
    (map search_event_of (attempts_for this topK skipped answers)) w0 ->
  documents_search U (search_request this kw topK) w0 = (AxiosFail rm m, w1) ->
  searchDocuments toLowerCase U this query topK maxChars w
  = (Thrown (outline_api_error this (AxiosError rm m)),
     map search_event_of (attempts_for this topK skipped answers)
     ++ [SearchEvent (search_request this kw topK) (AxiosFail rm m)],
     w1).
Proof.
  intros Hk Hlen Hall Hans Hs.
  rewrite searchDocuments_run, Hk.
  rewrite (search_loop_skip topK maxChars (kw :: later) skipped answers w w0
             Hlen Hall Hans).
  rewrite (search_loop_failed topK maxChars kw later w0 w1 rm m Hs).
  reflexivity.
Qed.

Lemma last_in_combine {A B} (d : B) (l : list A) (l' : list B) :
  length l' = length l -> l' <> [] ->
  exists init x, combine l l' = init ++ [(x, last l' d)].
Proof.
  revert l'. induction l as [|x l IH]; intros [|y l'] Hlen Hne;
    simpl in Hlen; try discriminate; try contradiction.
  destruct l' as [|y' l'].
  - destruct l; [|discriminate]. exists [], x. reflexivity.
  - destruct (IH (y' :: l')) as (init & x' & Heq); [congruence | discriminate |].
    exists ((x, y) :: init), x'.
    change (combine (x :: l) (y :: y' :: l'))
      with ((x, y) :: combine l (y' :: l')).
    rewrite Heq. reflexivity.
Qed.

(** What [searchDocuments] throws: the error made of a rejected search
    request, which is then the last request of the run, no document
    request having been sent; or a [TypeError] raised on a payload, after
    one request at least. *)
Lemma searchDocuments_thrown (query : jsstring) (topK maxChars : Z)
  (w : World U) e tr w' :
  searchDocuments toLowerCase U this query topK maxChars w
  = (Thrown e, tr, w') ->
  (exists earlier rq rm m,
      tr = earlier ++ [SearchEvent rq (AxiosFail rm m)]
      /\ info_attempts tr = []
      /\ e = outline_api_error this (AxiosError rm m))
  \/ (exists wording, e = TypeError wording /\ tr <> []).
Proof.
  intros Hrun.
  destruct (searchDocuments_structure query topK maxChars w _ tr w' Hrun)
    as (tried & later & answers & fetches & _ & Hlen & Htr & _ & Hinfo & _
        & _ & _ & Hne & [(rm & m & Hlast & -> & ->) | (wording & -> & _)]).
  - left.
    destruct (last_in_combine (AxiosOk DataFalsy)
                (map (fun k => search_request this k topK) tried) answers)
      as (init & rq & Heq); [rewrite length_map; exact Hlen | exact Hne |].
    exists (map search_event_of init), rq, rm, m.
    split; [|split; [exact Hinfo | reflexivity]].
    rewrite Htr. unfold attempts_for. rewrite Heq, map_app, app_nil_r.
    unfold last_answer in Hlast. rewrite Hlast. reflexivity.
  - right. exists wording. split; [reflexivity|].
    rewrite Htr. destruct answers as [|a answers]; [contradiction|].
    destruct tried as [|k tried]; [discriminate|]. discriminate.
Qed.

(** C1.  In every run of [searchDocuments], for every query, [topK] and
    [maxChars], the trace is what the wiki itself answers, request after
    request, from the state the run starts in.  Its search requests are
    those of a prefix [tried] of the extracted keywords, in order, one
    request per keyword (the keyword as query, [topK] as limit), and every
    attempt before the last one was fulfilled without a hit.  When the run
    returns, keywords are left untried ([later]) only if the last answer
    has a hit, and the returned list is made of the hits of that last
    answer alone: as many items, in the same order, each with the id, title
    and url of its hit's document.  And the run does return on the
    specification's example: when the wiki answers the search for the first
    keyword without a hit and the search for the second keyword with N hits
    (each hit with its document, each text a string or absent, as the
    wiki's interface has them), whatever it answers to the N document
    requests, [searchDocuments] sends these two search requests and
    these N document requests, and returns N items, those of the N hits
    in order. *)
Theorem searchDocuments_first_hit_only :
  (forall (query : jsstring) (topK maxChars : Z) (w : World U)
          (o : Outcome (list DocumentSummary)) (tr : list Event)
          (w' : World U),
      searchDocuments toLowerCase U this query topK maxChars w = (o, tr, w') ->
      answered_by U w tr w'
      /\ exists (tried later : list jsstring)
                (answers : list (AxiosResult SearchData)),
          extractKeywords toLowerCase query = tried ++ later
          /\ search_attempts tr
             = combine (map (fun k => search_request this k topK) tried)
                 answers
          /\ length answers = length tried
          /\ Forall (fun a => exists d, a = AxiosOk d /\ hits_of a = [])
                    (removelast answers)
          /\ forall docs : list DocumentSummary,
              o = Returned docs ->
              (hits_of (last_answer answers) = [] -> later = [])
              /\ length docs = length (hits_of (last_answer answers))
              /\ Forall2
                   (fun hit d =>
                      exists doc,
                        hit_document hit = DocumentObject doc
                        /\ sum_id d = or_else (doc_id doc) []
                        /\ sum_title d = or_else (doc_title doc) []
                        /\ sum_url d
                           = instanceUrl this ++ lit "/doc/"
                             ++ or_else (doc_urlId doc)
                                  (or_else (doc_id doc) []))
                   (hits_of (last_answer answers)) docs)
  /\ (forall (query : jsstring) (topK maxChars : Z)
             (first second : jsstring) (later : list jsstring)
             (w w1 w2 w3 : World U) (nothing : SearchData)
             (hits : list SearchHit) (responses : list (AxiosResult FullDoc)),
         extractKeywords toLowerCase query = first :: second :: later ->
         documents_search U (search_request this first topK) w
         = (AxiosOk nothing, w1) ->
         hits_of (AxiosOk nothing) = [] ->
         documents_search U (search_request this second topK) w1
         = (AxiosOk (DataArray hits), w2) ->
         hits <> [] ->
         Forall has_document hits ->
         length responses = length hits ->
         answered_by U w2
           (map (info_event_of this) (combine hits responses)) w3 ->
         Forall (fun hr => is_text (source_field (fst hr) (fetched (snd hr))))
                (combine hits responses) ->
         exists docs : list DocumentSummary,
           searchDocuments toLowerCase U this query topK maxChars w
           = (Returned docs,
              SearchEvent (search_request this first topK) (AxiosOk nothing)
              :: SearchEvent (search_request this second topK)
                   (AxiosOk (DataArray hits))
              :: map (info_event_of this) (combine hits responses),
              w3)
           /\ length docs = length hits
           /\ Forall2
                (fun hit d =>
                   exists doc,
                     hit_document hit = DocumentObject doc
                     /\ sum_id d = or_else (doc_id doc) []
                     /\ sum_title d = or_else (doc_title doc) []
                     /\ sum_url d
                        = instanceUrl this ++ lit "/doc/"
                          ++ or_else (doc_urlId doc)
                               (or_else (doc_id doc) []))
                hits docs).
Proof.
  assert (Hfields : forall maxChars (hit : SearchHit)
                           (r : AxiosResult FullDoc) (d : DocumentSummary),
             summary_of this maxChars (hit, r) = inr d ->
             exists doc,
               hit_document hit = DocumentObject doc
               /\ sum_id d = or_else (doc_id doc) []
               /\ sum_title d = or_else (doc_title doc) []
               /\ sum_url d
                  = instanceUrl this ++ lit "/doc/"
                    ++ or_else (doc_urlId doc) (or_else (doc_id doc) [])).
  { intros maxChars hit r d Hs.
    destruct (summary_of_fields maxChars hit r d Hs) as (doc & Hdoc & _ & ->).
    exists doc. repeat split. exact Hdoc. }
  split.
  - intros query topK maxChars w o tr w' Hrun.
    destruct (searchDocuments_structure query topK maxChars w o tr w' Hrun)
      as (tried & later & answers & fetches & Hk & Hlen & _ & Htr & _ & Hans
          & Hall & _ & Hout).
    split; [exact Hans|].
    exists tried, later, answers.
    split; [exact Hk|]. split; [exact Htr|]. split; [exact Hlen|].
    split; [exact Hall|].
    intros docs ->. destruct Hout as (Hstop & _ & rs & Hrs & _ & Hdocs).
    split; [exact Hstop|]. split.
    + exact (Forall2_length_summaries maxChars _ rs docs Hrs Hdocs).
    + exact (Forall2_combine_fst _ _ (Hfields maxChars) _ rs docs Hrs Hdocs).
  - intros query topK maxChars first second later w w1 w2 w3 nothing hits
      responses Hk Hs1 Hnone Hs2 Hne Hdoc Hrs Hfetch Htext.
    destruct (searchDocuments_returns query topK maxChars [first] second
                later [AxiosOk nothing] w w1 w2 w3 hits responses)
      as (docs & Hrun & Hdocs); try assumption.
    + reflexivity.
    + constructor; [|constructor]. exists nothing. split; [reflexivity|].
      exact Hnone.
    + simpl. rewrite Hs1. split; reflexivity.
    + exists docs. split; [exact Hrun|]. split.
      * apply Forall2_length in Hdocs. rewrite length_combine in Hdocs. lia.
      * exact (Forall2_combine_fst _ _ (Hfields maxChars) _ responses docs
                 Hrs Hdocs).
Qed.


(** *** Truncation *)

Lemma substring_length (s : jsstring) (m : Z) :
  (Z.of_nat (length (substring s 0 m)) <= Z.max 0 m)%Z.
Proof.
  unfold substring. cbv zeta.
  match goal with
  | |- context [firstn ?n ?l] =>
      pose proof (firstn_le_length n l) as Hle; revert Hle;
      generalize (length (firstn n l))
  end.
  intros k Hk. lia.
Qed.

(** C2, as amended.  For every value [maxChars] (the value is used as it
    comes, inside or outside the advertised bounds), every summary that
    [searchDocuments] returns has a text of at most [max 0 maxChars] code
    units: at most [maxChars] when that is not negative, and none at all
    when it is. *)
Theorem searchDocuments_text_length :
  forall (query : jsstring) (topK maxChars : Z) (w : World U)
         (docs : list DocumentSummary) (tr : list Event) (w' : World U),
    searchDocuments toLowerCase U this query topK maxChars w
    = (Returned docs, tr, w') ->
    Forall (fun d => (Z.of_nat (length (sum_text d)) <= Z.max 0 maxChars)%Z)
           docs.
Proof.
  intros query topK maxChars w docs tr w' Hrun.
  destruct (searchDocuments_structure query topK maxChars w _ tr w' Hrun)
    as (_ & _ & answers & _ & _ & _ & _ & _ & _ & _ & _ & _ & _ & _ & rs
        & _ & _ & Hdocs).
  clear Hrun.
  induction Hdocs as [|[hit r] d l docs Hd _ IH]; [constructor|].
  constructor; [|exact IH].
  destruct (summary_of_fields maxChars hit r d Hd) as (doc & _ & _ & ->).
  apply substring_length.
Qed.

(** *** Failed document requests *)

(** C8.  [getDocument] sends one document request and always returns: the
    wiki's payload when the request is fulfilled, null when it is rejected.
    Let the wiki answer the searches for the first keywords of a query
    without hits, then answer the search for the next keyword with hits
    that all have a document, and then answer the document requests of
    these hits, in order, in any way, rejections included.  Provided that
    the property each text is cut from is a string or absent,
    [searchDocuments] returns, with one item per hit in the order of the
    hits, and the text of each item is decided by the answer to its own
    request alone: the hit's context snippet cut to [maxChars] when no
    document came back (as when the request was rejected), the document's
    text cut to [maxChars] otherwise.  And an error that [searchDocuments]
    throws is made of a rejected search request or is a [TypeError]: no
    rejected document request ever surfaces. *)
Theorem detail_fetch_failures_absorbed :
  (forall (documentId : option jsstring) (w : World U),
      exists doc,
        getDocument U this documentId w
        = (Returned doc,
           [InfoEvent (info_request this documentId)
              (fst (documents_info U (info_request this documentId) w))],
           snd (documents_info U (info_request this documentId) w))
        /\ (forall rm m,
               fst (documents_info U (info_request this documentId) w)
               = AxiosFail rm m ->
               doc = FullDocNull)
        /\ (forall d,
               fst (documents_info U (info_request this documentId) w)
               = AxiosOk d ->
               doc = d))
  /\ (forall (query : jsstring) (topK maxChars : Z)
             (skipped : list jsstring) (kw : jsstring) (later : list jsstring)
             (answers : list (AxiosResult SearchData)) (w w0 w1 w2 : World U)
             (hits : list SearchHit) (responses : list (AxiosResult FullDoc)),
         extractKeywords toLowerCase query = skipped ++ kw :: later ->
         length answers = length skipped ->
         Forall without_hits answers ->
         answered_by U w
           (map search_event_of (attempts_for this topK skipped answers)) w0 ->
         documents_search U (search_request this kw topK) w0
         = (AxiosOk (DataArray hits), w1) ->
         hits <> [] ->
         Forall has_document hits ->
         length responses = length hits ->
         answered_by U w1
           (map (info_event_of this) (combine hits responses)) w2 ->
         Forall (fun hr => is_text (source_field (fst hr) (fetched (snd hr))))
                (combine hits responses) ->
         exists docs : list DocumentSummary,
           searchDocuments toLowerCase U this query topK maxChars w
           = (Returned docs,
              map search_event_of (attempts_for this topK skipped answers)
              ++ SearchEvent (search_request this kw topK)
                   (AxiosOk (DataArray hits))
                 :: map (info_event_of this) (combine hits responses),
              w2)
           /\ length docs = length hits
           /\ forall i hit response,
               nth_error hits i = Some hit ->
               nth_error responses i = Some response ->
               exists d,
                 nth_error docs i = Some d
                 /\ (FullDoc_truthy (fetched response) = false ->
                     sum_text d
                     = substring (text_of (hit_context hit)) 0 maxChars)
                 /\ (forall raw,
                        fetched response = FullDocObject raw ->
                        sum_text d
                        = substring (text_of (raw_text raw)) 0 maxChars))
  /\ (forall query topK maxChars w e tr w',
         searchDocuments toLowerCase U this query topK maxChars w
         = (Thrown e, tr, w') ->
         (exists rq rm m,
             In (SearchEvent rq (AxiosFail rm m)) tr
             /\ e = outline_api_error this (AxiosError rm m))
         \/ (exists wording, e = TypeError wording)).
Proof.
  split; [|split].
  - intros documentId w. rewrite getDocument_run.
    eexists. split; [reflexivity|]. split.
    + intros rm m ->. reflexivity.
    + intros d ->. reflexivity.
  - intros query topK maxChars skipped kw later answers w w0 w1 w2 hits
      responses Hk Hlen Hall Hans Hs Hne Hdoc Hrs Hfetch Htext.
    destruct (searchDocuments_returns query topK maxChars skipped kw later
                answers w w0 w1 w2 hits responses Hk Hlen Hall Hans Hs Hne
                Hdoc Hrs Hfetch Htext) as (docs & Hrun & Hdocs).
    exists docs. split; [exact Hrun|]. split.
    { apply Forall2_length in Hdocs. rewrite length_combine in Hdocs. lia. }
    intros i hit response Hhit Hresp.
    destruct (Forall2_combine_nth _ hits responses docs i hit response
                Hdocs Hhit Hresp) as (d & Hd & Hsum).
    exists d. split; [exact Hd|].
    destruct (summary_of_fields maxChars hit response d Hsum)
      as (doc & _ & _ & Hrec).
    assert (Htxt : sum_text d
                   = substring
                       (text_of (source_field hit (fetched response)))
                       0 maxChars) by (rewrite Hrec; reflexivity).
    clear Hrec. split.
    + intros Hfalsy. rewrite Htxt. unfold source_field.
      destruct (fetched response); [reflexivity | reflexivity | discriminate].
    + intros raw Hraw. rewrite Htxt. unfold source_field. rewrite Hraw.
      reflexivity.
  - intros query topK maxChars w e tr w' Hrun.
    destruct (searchDocuments_thrown query topK maxChars w e tr w' Hrun)
      as [(earlier & rq & rm & m & -> & _ & ->) | (wording & -> & _)].
    + left. exists rq, rm, m. split; [|reflexivity].
      apply in_or_app. right. left. reflexivity.
    + right. exists wording. reflexivity.
Qed.

(** *** Queries without a keyword *)

Lemma droppable_not_significant (w : jsstring) :
  droppable w -> significant w = false.
Proof.
  unfold significant. intros [Hlen | [Hstop | Hpunct]].
  - apply Nat.ltb_ge in Hlen. rewrite Hlen. reflexivity.
  - apply includes_In in Hstop. rewrite Hstop.
    rewrite andb_false_r. reflexivity.
  - destruct w as [|c w]; [reflexivity|].
    assert (Hm : matches_only_non_alnum (c :: w) = true).
    { unfold matches_only_non_alnum. apply forallb_forall.
      intros x Hx. rewrite Forall_forall in Hpunct.
      rewrite (Hpunct x Hx). reflexivity. }
    rewrite Hm. apply andb_false_r.
Qed.

Lemma filter_none {A} (f : A -> bool) (l : list A) :
  Forall (fun x => f x = false) l -> filter f l = [].
Proof.
  induction 1 as [|x l Hx _ IH]; simpl; [reflexivity|].
  rewrite Hx. exact IH.
Qed.

(** C9.  When every token of the lower-cased query is a stop word, has at
    most two characters or has no alphanumeric character, [extractKeywords]
    returns the empty sequence, and [searchDocuments] returns the empty
    list, sends no request at all and leaves the wiki as it was. *)
Theorem no_keywords_no_requests :
  forall query : jsstring,
    Forall droppable (split_whitespace (toLowerCase query)) ->
    extractKeywords toLowerCase query = []
    /\ forall (topK maxChars : Z) (w : World U),
        searchDocuments toLowerCase U this query topK maxChars w
        = (Returned [], [], w).
Proof.
  intros query Hall.
  assert (Hk : extractKeywords toLowerCase query = []).
  { unfold extractKeywords. apply filter_none.
    eapply Forall_impl; [|exact Hall].
    intros w. apply droppable_not_significant. }
  split; [exact Hk|].
  intros topK maxChars w. rewrite searchDocuments_run, Hk. reflexivity.
Qed.

(** C10.  When the search request for a keyword is fulfilled with a
    [data.data] that is falsy or is not an array, the loop, entered with an
    empty [documents], goes on exactly as the loop over the remaining
    keywords does from the state the wiki is then in, again with an empty
    [documents]: the attempt adds its own search request to the trace and
    nothing else (no document request), and it raises no error. *)
Theorem non_array_answer_skipped :
  forall (topK maxChars : Z) (kw : jsstring) (later : list jsstring)
         (w w1 : World U) (d : SearchData),
    documents_search U (search_request this kw topK) w = (AxiosOk d, w1) ->
    d = DataFalsy \/ d = DataNotArray ->
    search_loop U this topK maxChars (kw :: later) [] w
    = match search_loop U this topK maxChars later [] w1 with
      | (o, tr, w2) =>
          (o, SearchEvent (search_request this kw topK) (AxiosOk d) :: tr, w2)
      end.
Proof.
  intros topK maxChars kw later w w1 d Hs Hd.
  apply search_loop_no_hits; [exact Hs|].
  destruct Hd as [-> | ->]; reflexivity.
Qed.

(** *** The example query *)

Lemma demo_keywords :
  lowercases_ascii toLowerCase ->
  extractKeywords toLowerCase demo_query = [lit "reset"; lit "password?"].
Proof.
  intros Hlc. unfold extractKeywords.
  rewrite Hlc by reflexivity. reflexivity.
Qed.

(** C5, as amended.  For the query [How do I reset my password?] the
    keywords are [reset] and [password?], the question mark included.
    So a run of [searchDocuments] on it sends a search request for [reset]
    first, and either stops there (that answer has hits, or the request was
    rejected) or, that answer being without a hit, sends a second and last
    search request, for [password?]; and every answer in the run's trace
    is the wiki's own answer to the request it stands with. *)
Theorem demo_query_keywords :
  lowercases_ascii toLowerCase ->
  extractKeywords toLowerCase demo_query = [lit "reset"; lit "password?"]
  /\ forall (topK maxChars : Z) (w : World U) o tr w',
      searchDocuments toLowerCase U this demo_query topK maxChars w
      = (o, tr, w') ->
      answered_by U w tr w'
      /\ exists a1,
        (search_attempts tr = [(search_request this (lit "reset") topK, a1)]
         /\ (hits_of a1 <> [] \/ exists rm m, a1 = AxiosFail rm m))
        \/ (exists a2,
               search_attempts tr
               = [(search_request this (lit "reset") topK, a1);
                  (search_request this (lit "password?") topK, a2)]
               /\ hits_of a1 = []
               /\ exists d, a1 = AxiosOk d).
Proof.
  intros Hlc. split; [apply demo_keywords; exact Hlc|].
  intros topK maxChars w o tr w' Hrun.
  destruct (searchDocuments_structure demo_query topK maxChars w o tr w' Hrun)
    as (tried & later & answers & fetches & Hk & Hlen & _ & Htr & _ & Hans
        & Hall & _ & Hout).
  rewrite (demo_keywords Hlc) in Hk.
  split; [exact Hans|].
  unfold attempts_for in Htr.
  destruct tried as [|k1 [|k2 [|k3 tried]]]; simpl in Hk.
  - (* no attempt: impossible, two keywords are left *)
    destruct answers; [|discriminate]. subst later.
    destruct o as [docs | e].
    + destruct Hout as (Hstop & _). discriminate (Hstop eq_refl).
    + destruct Hout as (Hne & _). contradiction.
  - injection Hk as <- <-.
    destruct answers as [|a1 [|a2 answers]]; try discriminate.
    exists a1. left. split; [exact Htr|].
    destruct o as [docs | e].
    + destruct Hout as (Hstop & _). left. intros Hnone.
      discriminate (Hstop Hnone).
    + destruct Hout as (_ & [(rm & m & Hlast & _) | (wording & _ & Hh)]).
      * right. exists rm, m. exact Hlast.
      * left. exact Hh.
  - injection Hk as <- <- <-.
    destruct answers as [|a1 [|a2 [|a3 answers]]]; try discriminate.
    exists a1. right. exists a2. split; [exact Htr|].
    inversion Hall as [|x l (d & Hd & Hh) _]; subst.
    split; [exact Hh | exists d; reflexivity].
  - discriminate.
Qed.

(** *** The tool-call handler *)

(** The handler's [try] adds no request to those of [searchDocuments]; it
    wraps the documents it gets and lets an [McpError] through. *)
Lemma search_and_answer_run (query : jsstring) (top_k max_chars : Z)
  (w : World U) :
  search_and_answer toLowerCase U this query top_k max_chars w
  = match searchDocuments toLowerCase U this query top_k max_chars w with
    | (Returned docs, tr, w') => (Returned (TextContent docs), tr, w')
    | (Thrown e, tr, w') =>
        (Thrown (if instanceof_McpError e then e
                 else McpError InternalError
                        (lit "Failed to search documents: "
                         ++ error_toString e)),
         tr, w')
    end.
Proof.
  unfold search_and_answer, try_catch, bind, ret, throw.
  destruct (searchDocuments toLowerCase U this query top_k max_chars w)
    as [[[docs | e] tr] w'].
  - rewrite app_nil_r. reflexivity.
  - destruct (instanceof_McpError e); rewrite app_nil_r; reflexivity.
Qed.

(** Every search request of a run carries the [topK] it was called with. *)
Lemma searchDocuments_limit (query : jsstring) (topK maxChars : Z)
  (w : World U) :
  Forall (fun a => sr_limit (fst a) = topK)
    (search_attempts
       (snd (fst (searchDocuments toLowerCase U this query topK maxChars w)))).
Proof.
  destruct (searchDocuments toLowerCase U this query topK maxChars w)
    as [[o tr] w'] eqn:Hrun.
  destruct (searchDocuments_structure query topK maxChars w o tr w' Hrun)
    as (tried & later & answers & fetches & _ & _ & _ & Htr & _).
  simpl. rewrite Htr.
  apply (Forall_combine_fst (fun rq => sr_limit rq = topK)).
  apply Forall_map, Forall_forall. intros k _. reflexivity.
Qed.

(** C6.  For a call of [search_documents] whose arguments are an object
    with a string [query], the handler runs [searchDocuments] on that query
    with a [top_k] and a [max_chars] that are the caller's own values
    whenever these are numbers, whatever their size or sign, and 3 and 4000
    respectively whenever they are not numbers: the handler's run is the
    [try] block on these values, its answer holds the documents that
    [searchDocuments] returns for them, and every search request it sends
    carries that [top_k] as its limit. *)
Theorem call_tool_defaults :
  forall (request : CallToolRequest) (query : jsstring) (w : World U),
    str_eqb (params_name request) (lit "search_documents") = true ->
    truthy (params_arguments request) = true ->
    typeof (params_arguments request) = TObject ->
    get_property (params_arguments request) (lit "query") = JSString query ->
    exists top_k max_chars : Z,
      (forall n, get_property (params_arguments request) (lit "top_k")
                 = JSNumber n -> top_k = n)
      /\ (typeof (get_property (params_arguments request) (lit "top_k"))
          <> TNumber -> top_k = 3%Z)
      /\ (forall n, get_property (params_arguments request) (lit "max_chars")
                    = JSNumber n -> max_chars = n)
      /\ (typeof (get_property (params_arguments request) (lit "max_chars"))
          <> TNumber -> max_chars = 4000%Z)
      /\ call_tool toLowerCase U this request w
         = search_and_answer toLowerCase U this query top_k max_chars w
      /\ (forall docs tr w',
             searchDocuments toLowerCase U this query top_k max_chars w
             = (Returned docs, tr, w') ->
             call_tool toLowerCase U this request w
             = (Returned (TextContent docs), tr, w'))
      /\ Forall (fun a => sr_limit (fst a) = top_k)
           (search_attempts
              (snd (fst (call_tool toLowerCase U this request w)))).
Proof.
  intros request query w Hname Htruthy Hobj Hquery.
  set (args := params_arguments request) in *.
  exists (match get_property args (lit "top_k") with
          | JSNumber n => n
          | _ => 3%Z
          end),
         (match get_property args (lit "max_chars") with
          | JSNumber n => n
          | _ => 4000%Z
          end).
  assert (Hcall : forall k m,
             k = match get_property args (lit "top_k") with
                 | JSNumber n => n
                 | _ => 3%Z
                 end ->
             m = match get_property args (lit "max_chars") with
                 | JSNumber n => n
                 | _ => 4000%Z
                 end ->
             call_tool toLowerCase U this request w
             = search_and_answer toLowerCase U this query k m w).
  { intros k m -> ->. unfold call_tool. fold args.
    rewrite Hname, Htruthy, Hobj, Hquery. reflexivity. }
  split; [intros n ->; reflexivity|].
  split; [destruct (get_property args (lit "top_k")); simpl; congruence|].
  split; [intros n ->; reflexivity|].
  split; [destruct (get_property args (lit "max_chars")); simpl; congruence|].
  split; [apply Hcall; reflexivity|].
  split.
  - intros docs tr w' Hrun.
    rewrite (Hcall _ _ eq_refl eq_refl), search_and_answer_run, Hrun.
    reflexivity.
  - rewrite (Hcall _ _ eq_refl eq_refl), search_and_answer_run.
    match goal with
    | |- context [searchDocuments ?a ?b ?c ?q ?k ?m ?w0] =>
        pose proof (searchDocuments_limit q k m w0) as Hlim;
        destruct (searchDocuments a b c q k m w0) as [[[docs | e] tr] w']
    end; exact Hlim.
Qed.

(** C7.  A call of a tool other than [search_documents] throws a
    method-not-found error whose message ends with the name that was
    called.  A call of [search_documents] throws an invalid-params error
    when its arguments are missing, null or otherwise falsy, or not of type
    object, and also when they are an object whose [query] is not a string.
    In each of the three cases no request has been sent and the wiki is as
    it was. *)
Theorem call_tool_rejections :
  forall (request : CallToolRequest) (w : World U),
    (str_eqb (params_name request) (lit "search_documents") = false ->
     call_tool toLowerCase U this request w
     = (Thrown (McpError MethodNotFound
                  (lit "Unknown tool: " ++ params_name request)), [], w))
    /\ (str_eqb (params_name request) (lit "search_documents") = true ->
        truthy (params_arguments request) = false
        \/ typeof (params_arguments request) <> TObject ->
        call_tool toLowerCase U this request w
        = (Thrown (McpError InvalidParams
                     (lit "Arguments must be an object")), [], w))
    /\ (str_eqb (params_name request) (lit "search_documents") = true ->
        truthy (params_arguments request) = true ->
        typeof (params_arguments request) = TObject ->
        typeof (get_property (params_arguments request) (lit "query"))
        <> TString ->
        call_tool toLowerCase U this request w
        = (Thrown (McpError InvalidParams
                     (lit "Query must be a string")), [], w)).
Proof.
  intros request w. unfold call_tool. repeat split.
  - intros ->. reflexivity.
  - intros -> [-> | Hty]; [reflexivity|].
    destruct (typeof (params_arguments request)); try contradiction;
      rewrite orb_true_r; reflexivity.
  - intros -> -> -> Hq. simpl.
    destruct (get_property (params_arguments request) (lit "query"));
      try reflexivity.
    contradiction.
Qed.

End Runs.

(** ** The example run *)

Lemma ascii_toLowerCase_ok : lowercases_ascii ascii_toLowerCase.
Proof. intros s _. reflexivity. Qed.

Lemma demo_run_eq :
  searchDocuments ascii_toLowerCase demo_wiki demo_server demo_query
    3 4000 0%nat
  = (Returned demo_docs, demo_trace, 5%nat).
Proof. vm_compute. reflexivity. Qed.

(** The run asked for [reset], then for [password?], then for the three
    documents found; the second document could not be fetched, and its
    text is the snippet of the search hit. *)
Example demo_run_requests :
  map (fun a => sr_query (fst a)) (search_attempts demo_trace)
  = [lit "reset"; lit "password?"]
  /\ map (fun a => ir_id (fst a)) (info_attempts demo_trace)
     = [Some (lit "d1"); Some (lit "d2"); Some (lit "d3")]
  /\ map sum_text demo_docs
     = [lit "# Full text of d1"; lit "password rules"; lit "# Full text of d3"]
  /\ map sum_url demo_docs
     = [lit "https://wiki.example.com/doc/account-a1";
        lit "https://wiki.example.com/doc/d2";
        lit "https://wiki.example.com/doc/sso-c3"].
Proof. vm_compute. repeat split. Qed.

Lemma demo_hits_have_documents : Forall has_document demo_hits.
Proof. repeat constructor; eexists; reflexivity. Qed.

Lemma demo_texts_are_text :
  Forall (fun hr => is_text (source_field (fst hr) (fetched (snd hr))))
         (combine demo_hits demo_responses).
Proof. repeat constructor; intros wording; discriminate. Qed.

Lemma demo_fetches_answered :
  answered_by demo_wiki 2%nat
    (map (info_event_of demo_server) (combine demo_hits demo_responses))
    5%nat.
Proof. vm_compute. repeat split. Qed.

(** A hit without a document among the hits: the document request of the
    hit before it is sent all the same, [searchDocuments] throws the
    engine's [TypeError] as it is, and the handler wraps it. *)
Example malformed_run_eq :
  malformed_run
  = (Thrown (TypeError
               (lit "Cannot read properties of undefined (reading 'id')")),
     malformed_trace, 2%nat)
  /\ map (fun a => ir_id (fst a)) (info_attempts malformed_trace)
     = [Some (lit "d1")]
  /\ call_tool ascii_toLowerCase demo_wiki demo_server malformed_request
       0%nat
     = (Thrown
          (McpError InternalError
             (lit "Failed to search documents: TypeError: Cannot read properties of undefined (reading 'id')")),
        malformed_trace, 2%nat).
Proof. vm_compute. repeat split. Qed.

(** ** The theorems at the example run *)

Lemma searchDocuments_first_hit_only_witness :
  (answered_by demo_wiki 0%nat demo_trace 5%nat
   /\ exists (tried later : list jsstring)
             (answers : list (AxiosResult SearchData)),
       extractKeywords ascii_toLowerCase demo_query = tried ++ later
       /\ search_attempts demo_trace
          = combine (map (fun k => search_request demo_server k 3) tried)
              answers
       /\ length answers = length tried
       /\ Forall (fun a => exists d, a = AxiosOk d /\ hits_of a = [])
                 (removelast answers)
       /\ forall docs : list DocumentSummary,
           Returned demo_docs = Returned docs ->
           (hits_of (last_answer answers) = [] -> later = [])
           /\ length docs = length (hits_of (last_answer answers))
           /\ Forall2
                (fun hit d =>
                   exists doc,
                     hit_document hit = DocumentObject doc
                     /\ sum_id d = or_else (doc_id doc) []
                     /\ sum_title d = or_else (doc_title doc) []
                     /\ sum_url d
                        = instanceUrl demo_server ++ lit "/doc/"
                          ++ or_else (doc_urlId doc)
                               (or_else (doc_id doc) []))
                (hits_of (last_answer answers)) docs)
  /\ exists docs : list DocumentSummary,
      searchDocuments ascii_toLowerCase demo_wiki demo_server demo_query
        3 4000 0%nat
      = (Returned docs,
         SearchEvent (search_request demo_server (lit "reset") 3)
           (AxiosOk (DataArray []))
         :: SearchEvent (search_request demo_server (lit "password?") 3)
              (AxiosOk (DataArray demo_hits))
         :: map (info_event_of demo_server)
              (combine demo_hits demo_responses),
         5%nat)
      /\ length docs = length demo_hits
      /\ Forall2
           (fun hit d =>
              exists doc,
                hit_document hit = DocumentObject doc
                /\ sum_id d = or_else (doc_id doc) []
                /\ sum_title d = or_else (doc_title doc) []
                /\ sum_url d
                   = instanceUrl demo_server ++ lit "/doc/"
                     ++ or_else (doc_urlId doc) (or_else (doc_id doc) []))
           demo_hits docs.
Proof.
  split.
  - exact (proj1 (searchDocuments_first_hit_only ascii_toLowerCase demo_wiki
                    demo_server)
             demo_query 3%Z 4000%Z 0%nat (Returned demo_docs) demo_trace
             5%nat demo_run_eq).
  - refine (proj2 (searchDocuments_first_hit_only ascii_toLowerCase demo_wiki
                     demo_server)
              demo_query 3%Z 4000%Z (lit "reset") (lit "password?") []
              0%nat 1%nat 2%nat 5%nat (DataArray []) demo_hits
              demo_responses eq_refl eq_refl eq_refl eq_refl _
              demo_hits_have_documents eq_refl demo_fetches_answered
              demo_texts_are_text).
    discriminate.
Defined.

Lemma searchDocuments_text_length_witness :
  Forall (fun d => (Z.of_nat (length (sum_text d)) <= Z.max 0 4000)%Z)
         demo_docs.
Proof.
  exact (searchDocuments_text_length ascii_toLowerCase demo_wiki
           demo_server demo_query 3 4000 0%nat demo_docs demo_trace 5%nat
           demo_run_eq).
Defined.

(** C2 as stated fails: with [maxChars = -1] the example run returns three
    summaries with an empty text, and 0 is not at most -1. *)
Lemma text_length_negative_maxChars :
  ~ (forall (toLowerCase : jsstring -> jsstring) (U : Upstream)
            (this : OutlineServer) (query : jsstring) (topK maxChars : Z)
            (w : World U) docs tr w',
        lowercases_ascii toLowerCase ->
        searchDocuments toLowerCase U this query topK maxChars w
        = (Returned docs, tr, w') ->
        Forall (fun d => (Z.of_nat (length (sum_text d)) <= maxChars)%Z) docs).
Proof.
  intros Hclaim.
  pose proof (Hclaim ascii_toLowerCase demo_wiki demo_server demo_query
                3%Z (-1)%Z 0%nat _ _ _ ascii_toLowerCase_ok eq_refl) as Hall.
  inversion Hall as [|d docs Hd _]. simpl in Hd. lia.
Qed.

(** C5 as stated fails: the second keyword is [password?], not
    [password]. *)
Lemma demo_query_keywords_not_stripped :
  ~ (forall toLowerCase : jsstring -> jsstring,
        lowercases_ascii toLowerCase ->
        extractKeywords toLowerCase demo_query
        = [lit "reset"; lit "password"]).
Proof.
  intros Hclaim.
  specialize (Hclaim ascii_toLowerCase ascii_toLowerCase_ok).
  vm_compute in Hclaim. discriminate Hclaim.
Qed.

Lemma demo_query_keywords_witness :
  extractKeywords ascii_toLowerCase demo_query
  = [lit "reset"; lit "password?"]
  /\ answered_by demo_wiki 0%nat demo_trace 5%nat.
Proof.
  split.
  - exact (proj1 (demo_query_keywords ascii_toLowerCase demo_wiki demo_server
                    ascii_toLowerCase_ok)).
  - exact (proj1 (proj2 (demo_query_keywords ascii_toLowerCase demo_wiki
                           demo_server ascii_toLowerCase_ok)
                    3%Z 4000%Z 0%nat (Returned demo_docs) demo_trace 5%nat
                    demo_run_eq)).
Defined.

(** C3 fails on the code.  Configured with a trailing slash (a
    configuration the constructor accepts), the server sends its search
    requests to the URL without that slash, and builds the [url] of each
    summary with it: [https://wiki.example.com//doc/...]. *)
Theorem url_keeps_trailing_slash :
  new_OutlineServer (Some (lit "secret")) (Some (lit "https://wiki.example.com/"))
  = inr slash_server
  /\ match searchDocuments ascii_toLowerCase demo_wiki slash_server
             demo_query 3 4000 0%nat with
     | (Returned docs, tr, _) =>
         map (fun a => sr_url (fst a)) (search_attempts tr)
         = [lit "https://wiki.example.com/api/documents.search";
            lit "https://wiki.example.com/api/documents.search"]
         /\ map sum_url docs
            = [lit "https://wiki.example.com//doc/account-a1";
               lit "https://wiki.example.com//doc/d2";
               lit "https://wiki.example.com//doc/sso-c3"]
         /\ map sum_url docs
            <> map (fun hit =>
                      replace_trailing_slash (instanceUrl slash_server)
                      ++ lit "/doc/"
                      ++ match hit_document hit with
                         | DocumentObject doc =>
                             or_else (doc_urlId doc) (or_else (doc_id doc) [])
                         | DocumentMissing _ => []
                         end)
                   demo_hits
     | (Thrown _, _, _) => False
     end.
Proof.
  split; [reflexivity|].
  vm_compute. repeat split. discriminate.
Qed.

Lemma call_tool_defaults_witness :
  exists top_k max_chars : Z,
    (forall n, get_property (params_arguments demo_request) (lit "top_k")
               = JSNumber n -> top_k = n)
    /\ (typeof (get_property (params_arguments demo_request) (lit "top_k"))
        <> TNumber -> top_k = 3%Z)
    /\ (forall n, get_property (params_arguments demo_request)
                    (lit "max_chars") = JSNumber n -> max_chars = n)
    /\ (typeof (get_property (params_arguments demo_request)
                  (lit "max_chars")) <> TNumber -> max_chars = 4000%Z)
    /\ call_tool ascii_toLowerCase demo_wiki demo_server demo_request 0%nat
       = search_and_answer ascii_toLowerCase demo_wiki demo_server
           demo_query top_k max_chars 0%nat
    /\ (forall docs tr w',
           searchDocuments ascii_toLowerCase demo_wiki demo_server
             demo_query top_k max_chars 0%nat
           = (Returned docs, tr, w') ->
           call_tool ascii_toLowerCase demo_wiki demo_server demo_request
             0%nat
           = (Returned (TextContent docs), tr, w'))
    /\ Forall (fun a => sr_limit (fst a) = top_k)
         (search_attempts
            (snd (fst (call_tool ascii_toLowerCase demo_wiki demo_server
                         demo_request 0%nat)))).
Proof.
  exact (call_tool_defaults ascii_toLowerCase demo_wiki demo_server
           demo_request demo_query 0%nat eq_refl eq_refl eq_refl eq_refl).
Defined.

Lemma call_tool_rejections_witness :
  call_tool ascii_toLowerCase demo_wiki demo_server
    {| params_name := lit "delete_document";
       params_arguments := JSObject [(lit "query", JSString demo_query)] |}
    0%nat
  = (Thrown (McpError MethodNotFound (lit "Unknown tool: delete_document")),
     [], 0%nat)
  /\ call_tool ascii_toLowerCase demo_wiki demo_server
       {| params_name := lit "search_documents";
          params_arguments := JSUndefined |}
       0%nat
     = (Thrown (McpError InvalidParams (lit "Arguments must be an object")),
        [], 0%nat)
  /\ call_tool ascii_toLowerCase demo_wiki demo_server
       {| params_name := lit "search_documents";
          params_arguments := JSObject [] |}
       0%nat
     = (Thrown (McpError InvalidParams (lit "Query must be a string")),
        [], 0%nat).
Proof.
  split; [|split].
  - exact (proj1 (call_tool_rejections ascii_toLowerCase demo_wiki
                    demo_server
                    {| params_name := lit "delete_document";
                       params_arguments :=
                         JSObject [(lit "query", JSString demo_query)] |}
                    0%nat)
             eq_refl).
  - exact (proj1 (proj2 (call_tool_rejections ascii_toLowerCase demo_wiki
                           demo_server
                           {| params_name := lit "search_documents";
                              params_arguments := JSUndefined |}
                           0%nat))
             eq_refl (or_introl eq_refl)).
  - refine (proj2 (proj2 (call_tool_rejections ascii_toLowerCase demo_wiki
                            demo_server
                            {| params_name := lit "search_documents";
                               params_arguments := JSObject [] |}
                            0%nat))
              eq_refl eq_refl eq_refl _).
    simpl. discriminate.
Defined.

Lemma detail_fetch_failures_absorbed_witness :
  exists docs : list DocumentSummary,
    searchDocuments ascii_toLowerCase demo_wiki demo_server demo_query
      3 4000 0%nat
    = (Returned docs,
       map search_event_of
         (attempts_for demo_server 3 [lit "reset"] [AxiosOk (DataArray [])])
       ++ SearchEvent (search_request demo_server (lit "password?") 3)
            (AxiosOk (DataArray demo_hits))
          :: map (info_event_of demo_server)
               (combine demo_hits demo_responses),
       5%nat)
    /\ length docs = length demo_hits
    /\ forall i hit response,
        nth_error demo_hits i = Some hit ->
        nth_error demo_responses i = Some response ->
        exists d,
          nth_error docs i = Some d
          /\ (FullDoc_truthy (fetched response) = false ->
              sum_text d = substring (text_of (hit_context hit)) 0 4000)
          /\ (forall raw,
                 fetched response = FullDocObject raw ->
                 sum_text d = substring (text_of (raw_text raw)) 0 4000).
Proof.
  refine (proj1 (proj2 (detail_fetch_failures_absorbed ascii_toLowerCase
                          demo_wiki demo_server))
            demo_query 3%Z 4000%Z [lit "reset"] (lit "password?") []
            [AxiosOk (DataArray [])] 0%nat 1%nat 2%nat 5%nat demo_hits
            demo_responses eq_refl eq_refl _ _ eq_refl _
            demo_hits_have_documents eq_refl demo_fetches_answered
            demo_texts_are_text).
  - constructor; [|constructor].
    exists (DataArray []). split; reflexivity.
  - simpl. split; reflexivity.
  - discriminate.
Defined.

Lemma no_keywords_no_requests_witness :
  extractKeywords ascii_toLowerCase (lit "How do I ?!?") = []
  /\ forall (topK maxChars : Z) (w : World demo_wiki),
      searchDocuments ascii_toLowerCase demo_wiki demo_server
        (lit "How do I ?!?") topK maxChars w
      = (Returned [], [], w).
Proof.
  apply (no_keywords_no_requests ascii_toLowerCase demo_wiki demo_server
           (lit "How do I ?!?")).
  vm_compute.
  repeat constructor;
    first [ left; repeat constructor
          | right; left; repeat constructor
          | right; right; repeat constructor ].
Defined.

Lemma non_array_answer_skipped_witness :
  search_loop demo_wiki demo_server 3 4000
    [lit "broken"; lit "password?"] [] 0%nat
  = match search_loop demo_wiki demo_server 3 4000 [lit "password?"] []
            1%nat with
    | (o, tr, w2) =>
        (o,
         SearchEvent (search_request demo_server (lit "broken") 3)
           (AxiosOk DataNotArray) :: tr,
         w2)
    end.
Proof.
  exact (non_array_answer_skipped demo_wiki demo_server 3%Z 4000%Z
           (lit "broken") [lit "password?"] 0%nat 1%nat DataNotArray
           eq_refl (or_intror eq_refl)).
Defined.

(** ** More about extractKeywords *)

(** Whatever holds of the current piece and of every code unit that is not
    white space holds of every piece of the split. *)
Lemma split_go_Forall (Q : code_unit -> Prop) (s : jsstring) :
  forall (in_ws : bool) (cur : jsstring),
    Forall Q cur ->
    Forall (fun c => is_whitespace c = false -> Q c) s ->
    Forall (Forall Q) (split_go in_ws cur s).
Proof.
  induction s as [|c s IH]; intros in_ws cur Hcur Hs; simpl.
  - constructor; [exact Hcur | constructor].
  - inversion Hs as [|c' s' Hc Hs']; subst.
    destruct (is_whitespace c) eqn:Ews.
    + destruct in_ws; [|constructor; [exact Hcur|]];
        apply IH; auto.
    + apply IH; [|exact Hs'].
      apply Forall_app. split; [exact Hcur|].
      constructor; [apply Hc; reflexivity | constructor].
Qed.

Lemma significant_has_alnum (w : jsstring) :
  significant w = true -> exists c, In c w /\ is_alnum c = true.
Proof.
  destruct w as [|c w]; [discriminate|].
  unfold significant. intros H.
  apply andb_true_iff in H. destruct H as [_ Hm].
  apply negb_true_iff in Hm. unfold matches_only_non_alnum in Hm.
  assert (Hex : existsb is_alnum (c :: w) = true).
  { rewrite <- (negb_involutive (existsb is_alnum (c :: w))).
    apply negb_true_iff. rewrite <- Hm. clear Hm.
    induction (c :: w) as [|x l IHl]; simpl; [reflexivity|].
    rewrite negb_orb, IHl. reflexivity. }
  apply existsb_exists in Hex. exact Hex.
Qed.

(** X1.  Every keyword that [extractKeywords] returns has three code units
    or more, none of them white space and one at least in [[a-zA-Z0-9]],
    and is not a stop word. *)
Theorem extractKeywords_wellformed :
  forall (toLowerCase : jsstring -> jsstring) (query : jsstring),
    Forall (fun k =>
              (3 <= length k)%nat
              /\ Forall (fun c => is_whitespace c = false) k
              /\ (exists c, In c k /\ is_alnum c = true)
              /\ ~ In k stopWords)
           (extractKeywords toLowerCase query).
Proof.
  intros toLowerCase query. unfold extractKeywords.
  apply Forall_forall. intros k Hk.
  apply filter_In in Hk. destruct Hk as [Hin Hsig].
  split; [|split; [|split]].
  - unfold significant in Hsig.
    apply andb_true_iff in Hsig. destruct Hsig as [Hsig _].
    apply andb_true_iff in Hsig. destruct Hsig as [Hlen _].
    apply Nat.ltb_lt in Hlen. lia.
  - assert (Hall : Forall (Forall (fun c => is_whitespace c = false))
                     (split_whitespace (toLowerCase query))).
    { apply split_go_Forall; [constructor|].
      apply Forall_forall. intros c _ Hc. exact Hc. }
    rewrite Forall_forall in Hall. apply Hall. exact Hin.
  - apply significant_has_alnum. exact Hsig.
  - intros Hstop. apply includes_In in Hstop.
    unfold significant in Hsig. rewrite Hstop in Hsig.
    rewrite andb_false_r in Hsig. discriminate.
Qed.

Lemma ascii_lower_not_upper (c : code_unit) :
  is_ascii c = true ->
  is_ascii (ascii_lower c) = true /\ is_upper (ascii_lower c) = false.
Proof.
  unfold is_ascii, ascii_lower, is_upper. intros Hc.
  apply N.ltb_lt in Hc.
  destruct ((65 <=? c) && (c <=? 90))%N eqn:E.
  - apply andb_true_iff in E. destruct E as [E1 E2].
    apply N.leb_le in E1, E2.
    split; [apply N.ltb_lt; lia|].
    apply andb_false_iff. right. apply N.leb_gt. lia.
  - split; [apply N.ltb_lt; lia | exact E].
Qed.

(** X2.  On a host that lower-cases ASCII text as JavaScript does, the
    keywords of an ASCII query are ASCII and hold no letter of [[A-Z]]:
    the search terms sent to the wiki are in lower case. *)
Theorem extractKeywords_lower_case :
  forall (toLowerCase : jsstring -> jsstring) (query : jsstring),
    lowercases_ascii toLowerCase ->
    forallb is_ascii query = true ->
    Forall (Forall (fun c => is_ascii c = true /\ is_upper c = false))
           (extractKeywords toLowerCase query).
Proof.
  intros toLowerCase query Hlc Hascii. unfold extractKeywords.
  rewrite (Hlc query Hascii).
  apply Forall_forall. intros k Hk.
  apply filter_In in Hk. destruct Hk as [Hin _].
  assert (Hall : Forall (Forall (fun c => is_ascii c = true
                                          /\ is_upper c = false))
                   (split_whitespace (map ascii_lower query))).
  { apply split_go_Forall; [constructor|].
    apply Forall_map, Forall_forall. intros c Hc _.
    apply ascii_lower_not_upper.
    rewrite forallb_forall in Hascii. apply Hascii. exact Hc. }
  rewrite Forall_forall in Hall. apply Hall. exact Hin.
Qed.

Lemma pieces_app_whitespace (a b : jsstring) (c : code_unit) :
  is_whitespace c = true ->
  pieces (a ++ c :: b) = pieces a ++ pieces b.
Proof.
  intros Hc. induction a as [|x a IH].
  - simpl app. rewrite pieces_cons, Hc. reflexivity.
  - simpl app. rewrite !pieces_cons, IH.
    destruct (is_whitespace x); [reflexivity|].
    pose proof (pieces_not_nil a) as Hne.
    destruct (pieces a) as [|p ps]; [contradiction | reflexivity].
Qed.

Lemma significant_split_tokens (s : jsstring) :
  filter significant (split_whitespace s) = filter significant (tokens s).
Proof.
  rewrite <- split_whitespace_tokens.
  symmetry. apply filter_filter_implied. exact significant_nonempty.
Qed.

Lemma whitespace_not_upper (c : code_unit) :
  is_whitespace c = true -> ascii_lower c = c.
Proof.
  unfold ascii_lower, is_whitespace. intros H.
  destruct ((65 <=? c) && (c <=? 90))%N eqn:E; [|reflexivity].
  apply andb_true_iff in E. destruct E as [E1 E2].
  apply N.leb_le in E1, E2.
  repeat (apply orb_prop in H; destruct H as [H | H]);
    try (apply andb_true_iff in H; destruct H as [H1 H2];
         apply N.leb_le in H1, H2; lia);
    apply N.eqb_eq in H; lia.
Qed.

(** X3.  On a host that lower-cases ASCII text as JavaScript does, the
    keywords of two ASCII texts joined by a white-space character are the
    keywords of the first followed by the keywords of the second: a query
    is processed word by word, and no keyword spans a blank. *)
Theorem extractKeywords_app :
  forall (toLowerCase : jsstring -> jsstring) (a b : jsstring)
         (c : code_unit),
    lowercases_ascii toLowerCase ->
    forallb is_ascii (a ++ c :: b) = true ->
    is_whitespace c = true ->
    extractKeywords toLowerCase (a ++ c :: b)
    = extractKeywords toLowerCase a ++ extractKeywords toLowerCase b.
Proof.
  intros toLowerCase a b c Hlc Hascii Hc.
  pose proof Hascii as Hparts.
  rewrite forallb_app in Hparts. apply andb_true_iff in Hparts.
  destruct Hparts as [Ha Hcb]. simpl in Hcb.
  apply andb_true_iff in Hcb. destruct Hcb as [_ Hb].
  unfold extractKeywords.
  rewrite (Hlc _ Hascii), (Hlc _ Ha), (Hlc _ Hb).
  rewrite map_app. simpl map. rewrite (whitespace_not_upper c Hc).
  rewrite !significant_split_tokens. unfold tokens.
  rewrite (pieces_app_whitespace _ _ c Hc), !filter_app.
  reflexivity.
Qed.

Lemma extractKeywords_lower_case_witness :
  Forall (Forall (fun c => is_ascii c = true /\ is_upper c = false))
         (extractKeywords ascii_toLowerCase demo_query).
Proof.
  exact (extractKeywords_lower_case ascii_toLowerCase demo_query
           ascii_toLowerCase_ok eq_refl).
Defined.

Lemma extractKeywords_app_witness :
  extractKeywords ascii_toLowerCase (lit "Reset my" ++ 32%N :: lit "Password now")
  = extractKeywords ascii_toLowerCase (lit "Reset my")
    ++ extractKeywords ascii_toLowerCase (lit "Password now").
Proof.
  exact (extractKeywords_app ascii_toLowerCase (lit "Reset my") (lit "Password now")
           32%N ascii_toLowerCase_ok eq_refl eq_refl).
Defined.

(** ** More about the requests of a run *)

Section Requests.

Variable toLowerCase : jsstring -> jsstring.
Variable U : Upstream.
Variable this : OutlineServer.

Lemma attempts_for_keywords (topK : Z) (tried : list jsstring)
  (answers : list (AxiosResult SearchData)) :
  Forall (fun a => exists k, In k tried /\ fst a = search_request this k topK)
         (attempts_for this topK tried answers).
Proof.
  unfold attempts_for.
  apply (Forall_combine_fst
           (fun rq => exists k, In k tried /\ rq = search_request this k topK)).
  apply Forall_map, Forall_forall. intros k Hk. exists k. split; auto.
Qed.

Lemma map_snd_combine {A B} (l : list A) (l' : list B) :
  length l' = length l -> map snd (combine l l') = l'.
Proof.
  revert l'. induction l as [|x l IH]; intros [|y l'] Hlen;
    simpl in *; try discriminate; [reflexivity|].
  f_equal. apply IH. congruence.
Qed.

(** X5.  In every run of [searchDocuments], all search requests come
    before all document requests.  Every search request goes to
    [/api/documents.search] under the instance URL without its final slash,
    carries the API key as bearer token, asks for one of the keywords of
    the query with limit [topK], offset 0 and the status filter
    [published]; every document request goes to [/api/documents.info] under
    the same base with the same token. *)
Theorem requests_discipline :
  forall (query : jsstring) (topK maxChars : Z) (w : World U) o tr w',
    searchDocuments toLowerCase U this query topK maxChars w = (o, tr, w') ->
    (exists searches fetches : list Event,
        tr = searches ++ fetches
        /\ info_attempts searches = []
        /\ search_attempts fetches = [])
    /\ Forall
         (fun ev =>
            match ev with
            | SearchEvent rq _ =>
                sr_url rq
                = replace_trailing_slash (instanceUrl this)
                  ++ lit "/api/documents.search"
                /\ sr_authorization rq = lit "Bearer " ++ apiKey this
                /\ In (sr_query rq) (extractKeywords toLowerCase query)
                /\ sr_limit rq = topK
                /\ sr_offset rq = 0%Z
                /\ sr_statusFilter rq = [lit "published"]
            | InfoEvent rq _ =>
                ir_url rq
                = replace_trailing_slash (instanceUrl this)
                  ++ lit "/api/documents.info"
                /\ ir_authorization rq = lit "Bearer " ++ apiKey this
            end)
         tr.
Proof.
  intros query topK maxChars w o tr w' Hrun.
  destruct (searchDocuments_structure toLowerCase U this query topK maxChars
              w o tr w' Hrun)
    as (tried & later & answers & fetches & Hk & _ & -> & _).
  split.
  - exists (map search_event_of (attempts_for this topK tried answers)),
           (map (info_event_of this) fetches).
    split; [reflexivity|]. split.
    + apply search_attempts_events.
    + apply search_attempts_info.
  - apply Forall_app. split.
    + apply Forall_map.
      eapply Forall_impl; [|apply attempts_for_keywords].
      intros [rq rs] (k & Hin & Hrq). simpl in *. subst rq.
      repeat split. simpl. rewrite Hk. apply in_or_app. left. exact Hin.
    + apply Forall_map, Forall_forall. intros f _. simpl. split; reflexivity.
Qed.

(** X6.  A rejected search request ends the run with an error that names
    the wiki's message.  When the wiki answers the searches for the first
    keywords of a query without hits and rejects the search for the next
    one, [searchDocuments] sends these requests and no other, and throws
    an [McpError] constructed with the code [InternalError] and a message
    made of the wiki's own message (the error's when the wiki gave none or
    an empty one) and the configured instance URL; the handler's [try]
    block throws that same error, unchanged.  And whenever
    [searchDocuments] throws an [McpError], it is this one: the last
    request of the run is a rejected search request, and no document
    request was sent. *)
Theorem search_failure_reported :
  (forall (query : jsstring) (topK maxChars : Z)
          (skipped : list jsstring) (kw : jsstring) (later : list jsstring)
          (answers : list (AxiosResult SearchData)) (w w0 w1 : World U)
          (rm : option jsstring) (m : jsstring),
      extractKeywords toLowerCase query = skipped ++ kw :: later ->
      length answers = length skipped ->
      Forall without_hits answers ->
      answered_by U w
        (map search_event_of (attempts_for this topK skipped answers)) w0 ->
      documents_search U (search_request this kw topK) w0
      = (AxiosFail rm m, w1) ->
      searchDocuments toLowerCase U this query topK maxChars w
      = (Thrown (McpError InternalError
                   (lit "Outline API error: " ++ or_else rm m
                    ++ lit " (URL: " ++ instanceUrl this ++ lit ")")),
         map search_event_of (attempts_for this topK skipped answers)
         ++ [SearchEvent (search_request this kw topK) (AxiosFail rm m)],
         w1)
      /\ search_and_answer toLowerCase U this query topK maxChars w
         = (Thrown (McpError InternalError
                      (lit "Outline API error: " ++ or_else rm m
                       ++ lit " (URL: " ++ instanceUrl this ++ lit ")")),
            map search_event_of (attempts_for this topK skipped answers)
            ++ [SearchEvent (search_request this kw topK) (AxiosFail rm m)],
            w1))
  /\ (forall (query : jsstring) (topK maxChars : Z) (w : World U)
             code message tr w',
         searchDocuments toLowerCase U this query topK maxChars w
         = (Thrown (McpError code message), tr, w') ->
         (exists earlier rq rm m,
             tr = earlier ++ [SearchEvent rq (AxiosFail rm m)]
             /\ code = InternalError
             /\ message
                = lit "Outline API error: " ++ or_else rm m
                  ++ lit " (URL: " ++ instanceUrl this ++ lit ")")
         /\ info_attempts tr = []
         /\ search_and_answer toLowerCase U this query topK maxChars w
            = (Thrown (McpError code message), tr, w')).
Proof.
  split.
  - intros query topK maxChars skipped kw later answers w w0 w1 rm m
      Hk Hlen Hall Hans Hs.
    pose proof (searchDocuments_rejected toLowerCase U this query topK
                  maxChars skipped kw later answers w w0 w1 rm m
                  Hk Hlen Hall Hans Hs) as Hrun.
    split; [exact Hrun|].
    rewrite search_and_answer_run, Hrun. reflexivity.
  - intros query topK maxChars w code message tr w' Hrun.
    destruct (searchDocuments_thrown toLowerCase U this query topK maxChars
                w _ tr w' Hrun)
      as [(earlier & rq & rm & m & Htr & Hinfo & He) | (wording & He & _)];
      [|discriminate].
    injection He as -> ->.
    split; [exists earlier, rq, rm, m; repeat split; exact Htr|].
    split; [exact Hinfo|].
    rewrite search_and_answer_run, Hrun. reflexivity.
Qed.

(** X11.  A run of [searchDocuments] sends at most one search request per
    keyword of the query, and at most one document request per hit of the
    answer to its last search request; when it returns it has sent exactly
    one document request per item of the list it returns; and every answer
    in its trace is the wiki's own. *)
Theorem request_counts :
  forall (query : jsstring) (topK maxChars : Z) (w : World U) o tr w',
    searchDocuments toLowerCase U this query topK maxChars w = (o, tr, w') ->
    answered_by U w tr w'
    /\ (length (search_attempts tr)
        <= length (extractKeywords toLowerCase query))%nat
    /\ (length (info_attempts tr)
        <= length (hits_of (last_answer (map snd (search_attempts tr)))))%nat
    /\ (forall docs, o = Returned docs ->
                     length (info_attempts tr) = length docs).
Proof.
  intros query topK maxChars w o tr w' Hrun.
  destruct (searchDocuments_structure toLowerCase U this query topK maxChars
              w o tr w' Hrun)
    as (tried & later & answers & fetches & Hk & Hlen & _ & Hsearch & Hinfo
        & Hans & _ & Hfetch & Hout).
  split; [exact Hans|]. split; [|split].
  - rewrite Hsearch, Hk. unfold attempts_for.
    rewrite length_combine, length_map, length_app. lia.
  - rewrite Hsearch, Hinfo. unfold attempts_for.
    rewrite map_snd_combine by (rewrite length_map; exact Hlen).
    rewrite length_map. exact Hfetch.
  - intros docs ->. destruct Hout as (_ & _ & rs & Hrs & -> & Hdocs).
    rewrite Hinfo, length_map.
    apply Forall2_length in Hdocs. exact Hdocs.
Qed.

(** *** Truncation, exactly *)

Lemma substring_firstn (s : jsstring) (m : Z) :
  substring s 0 m = firstn (Z.to_nat m) s.
Proof.
  unfold substring. cbv zeta.
  replace (Z.min (Z.min (Z.max 0 0) (Z.of_nat (length s)))
                 (Z.min (Z.max m 0) (Z.of_nat (length s)))) with 0%Z by lia.
  simpl skipn.
  destruct (Z_le_gt_dec m (Z.of_nat (length s))) as [Hle | Hgt].
  - f_equal. lia.
  - rewrite !firstn_all2 by lia. reflexivity.
Qed.

(** X4.  The text of a returned item is the first [maxChars] code units of
    its source, and the whole source when that has at most [maxChars] code
    units.  When the wiki answers the searches for the first keywords of a
    query without hits, answers the search for the next keyword with hits
    that all have a document, and answers the document requests of these
    hits in any way, the texts to cut being strings or absent, then
    [searchDocuments] returns one item per hit, in order, and the source of
    each item is the [text] of the document the wiki sent for its hit, or
    the hit's own [context] when the wiki sent none or rejected the
    request (each read as empty when absent). *)
Theorem text_is_prefix_of_source :
  forall (query : jsstring) (topK maxChars : Z)
         (skipped : list jsstring) (kw : jsstring) (later : list jsstring)
         (answers : list (AxiosResult SearchData)) (w w0 w1 w2 : World U)
         (hits : list SearchHit) (responses : list (AxiosResult FullDoc)),
    extractKeywords toLowerCase query = skipped ++ kw :: later ->
    length answers = length skipped ->
    Forall without_hits answers ->
    answered_by U w
      (map search_event_of (attempts_for this topK skipped answers)) w0 ->
    documents_search U (search_request this kw topK) w0
    = (AxiosOk (DataArray hits), w1) ->
    hits <> [] ->
    Forall has_document hits ->
    length responses = length hits ->
    answered_by U w1
      (map (info_event_of this) (combine hits responses)) w2 ->
    Forall (fun hr => is_text (source_field (fst hr) (fetched (snd hr))))
           (combine hits responses) ->
    exists docs : list DocumentSummary,
      fst (fst (searchDocuments toLowerCase U this query topK maxChars w))
      = Returned docs
      /\ Forall2
           (fun hr d =>
              sum_text d
              = firstn (Z.to_nat maxChars)
                  (text_of (source_field (fst hr) (fetched (snd hr))))
              /\ ((Z.of_nat
                     (length
                        (text_of (source_field (fst hr) (fetched (snd hr)))))
                   <= maxChars)%Z ->
                  sum_text d
                  = text_of (source_field (fst hr) (fetched (snd hr)))))
           (combine hits responses) docs.
Proof.
  intros query topK maxChars skipped kw later answers w w0 w1 w2 hits
    responses Hk Hlen Hall Hans Hs Hne Hdoc Hrs Hfetch Htext.
  destruct (searchDocuments_returns toLowerCase U this query topK maxChars
              skipped kw later answers w w0 w1 w2 hits responses Hk Hlen
              Hall Hans Hs Hne Hdoc Hrs Hfetch Htext) as (docs & Hrun & Hdocs).
  exists docs. split; [rewrite Hrun; reflexivity|].
  clear Hrun Htext Hfetch.
  induction Hdocs as [|[hit r] d l docs Hd _ IH]; constructor; [|exact IH].
  destruct (summary_of_fields this maxChars hit r d Hd) as (doc & _ & _ & ->).
  simpl. rewrite substring_firstn. split; [reflexivity|].
  intros Hshort. apply firstn_all2. lia.
Qed.

(** *** What the handler throws *)

(** What the handler's [try] block throws: the error of a rejected search
    request, or a wrapped [TypeError]. *)
Lemma search_and_answer_thrown (query : jsstring) (top_k max_chars : Z)
  (w : World U) e tr w' :
  search_and_answer toLowerCase U this query top_k max_chars w
  = (Thrown e, tr, w') ->
  (exists earlier rq rm m,
      tr = earlier ++ [SearchEvent rq (AxiosFail rm m)]
      /\ e = McpError InternalError
               (lit "Outline API error: " ++ or_else rm m
                ++ lit " (URL: " ++ instanceUrl this ++ lit ")"))
  \/ (exists wording,
         e = McpError InternalError
               (lit "Failed to search documents: "
                ++ error_toString (TypeError wording))
         /\ tr <> []).
Proof.
  rewrite search_and_answer_run.
  destruct (searchDocuments toLowerCase U this query top_k max_chars w)
    as [[[docs | e0] tr0] w0] eqn:Hrun; [discriminate|].
  intros [= <- <- <-].
  destruct (searchDocuments_thrown toLowerCase U this query top_k max_chars
              w e0 tr0 w0 Hrun)
    as [(earlier & rq & rm & m & Htr & _ & ->) | (wording & -> & Hne)].
  - left. exists earlier, rq, rm, m. split; [exact Htr | reflexivity].
  - right. exists wording. split; [reflexivity | exact Hne].
Qed.

(** A call of [search_documents] is never answered with a method-not-found
    error. *)
Lemma call_tool_known_name (request : CallToolRequest) (w : World U) :
  str_eqb (params_name request) (lit "search_documents") = true ->
  forall message,
    fst (fst (call_tool toLowerCase U this request w))
    <> Thrown (McpError MethodNotFound message).
Proof.
  intros Hname message. unfold call_tool. rewrite Hname. simpl.
  destruct (negb (truthy (params_arguments request))
            || negb (JSType_eqb (typeof (params_arguments request)) TObject));
    [discriminate|].
  destruct (get_property (params_arguments request) (lit "query"));
    try discriminate.
  match goal with
  | |- context [search_and_answer ?a ?b ?c ?q ?k ?m ?w0] =>
      destruct (search_and_answer a b c q k m w0) as [[[res | e] tr] w']
        eqn:Hrun
  end; [discriminate|].
  destruct (search_and_answer_thrown _ _ _ _ _ _ _ Hrun)
    as [(earlier & rq & rm & m & _ & ->) | (wording & -> & _)];
    discriminate.
Qed.

(** X7.  Whatever the request, an error thrown by the tool-call handler is
    an [McpError], of one of three kinds: method-not-found for a name other
    than [search_documents], before any request is sent; invalid-params
    for [search_documents], before any request is sent; or internal-error
    for [search_documents], after at least one request was sent: then
    either the last request is a rejected search request and the error is
    constructed with the [Outline API error] message, or a [TypeError]
    raised on a malformed payload of the wiki was wrapped, with its name
    and wording after [Failed to search documents: ]. *)
Theorem call_tool_errors :
  forall (request : CallToolRequest) (w : World U) e tr w',
    call_tool toLowerCase U this request w = (Thrown e, tr, w') ->
    (str_eqb (params_name request) (lit "search_documents") = false
     /\ e = McpError MethodNotFound
              (lit "Unknown tool: " ++ params_name request)
     /\ tr = [] /\ w' = w)
    \/ (params_name request = lit "search_documents"
        /\ (exists message, e = McpError InvalidParams message)
        /\ tr = [] /\ w' = w)
    \/ (params_name request = lit "search_documents"
        /\ tr <> []
        /\ ((exists earlier rq rm m,
                tr = earlier ++ [SearchEvent rq (AxiosFail rm m)]
                /\ e = McpError InternalError
                         (lit "Outline API error: " ++ or_else rm m
                          ++ lit " (URL: " ++ instanceUrl this ++ lit ")"))
            \/ (exists wording,
                   e = McpError InternalError
                         (lit "Failed to search documents: "
                          ++ error_toString (TypeError wording))))).
Proof.
  intros request w e tr w'. unfold call_tool.
  destruct (str_eqb (params_name request) (lit "search_documents")) eqn:Hname;
    simpl.
  2:{ intros [= <- <- <-]. left. repeat split. }
  apply str_eqb_eq in Hname.
  destruct (negb (truthy (params_arguments request))
            || negb (JSType_eqb (typeof (params_arguments request)) TObject)).
  { intros [= <- <- <-]. right. left. repeat split; [assumption|].
    eexists. reflexivity. }
  destruct (get_property (params_arguments request) (lit "query"))
    as [| | | |query| |];
    try (intros [= <- <- <-]; right; left; repeat split; [assumption|];
         eexists; reflexivity).
  intros Hrun. right. right. split; [assumption|].
  destruct (search_and_answer_thrown _ _ _ _ _ _ _ Hrun)
    as [(earlier & rq & rm & m & Htr & ->) | (wording & -> & Hne)].
  - split; [rewrite Htr; destruct earlier; discriminate|].
    left. exists earlier, rq, rm, m. split; [exact Htr | reflexivity].
  - split; [exact Hne|]. right. exists wording. reflexivity.
Qed.

(** X9.  The names that the tool list advertises are exactly the names that
    the tool-call handler does not reject as unknown. *)
Theorem list_tools_names_dispatched :
  forall (request : CallToolRequest) (w : World U),
    In (params_name request) (map tool_name list_tools)
    <-> forall message,
          fst (fst (call_tool toLowerCase U this request w))
          <> Thrown (McpError MethodNotFound message).
Proof.
  intros request w. split.
  - intros [Hname | []]. apply call_tool_known_name.
    apply str_eqb_eq. symmetry. exact Hname.
  - intros Hnot. left.
    destruct (str_eqb (params_name request) (lit "search_documents")) eqn:Hname.
    + apply str_eqb_eq in Hname. symmetry. exact Hname.
    + exfalso. apply (Hnot (lit "Unknown tool: " ++ params_name request)).
      unfold call_tool. rewrite Hname. reflexivity.
Qed.

End Requests.

(** ** The constructor and the instance URL *)

(** X8.  The constructor succeeds exactly when both environment variables
    are set and not empty, and the server then holds the two values as
    they are (the instance URL is not normalised). *)
Theorem new_OutlineServer_spec :
  forall (OUTLINE_API_KEY OUTLINE_INSTANCE_URL : option jsstring)
         (server : OutlineServer),
    new_OutlineServer OUTLINE_API_KEY OUTLINE_INSTANCE_URL = inr server
    <-> OUTLINE_API_KEY = Some (apiKey server)
        /\ OUTLINE_INSTANCE_URL = Some (instanceUrl server)
        /\ apiKey server <> []
        /\ instanceUrl server <> [].
Proof.
  intros key url [k u]. unfold new_OutlineServer. simpl. split.
  - destruct key as [[|c1 k1]|], url as [[|c2 u2]|]; simpl;
      try discriminate.
    intros [= <- <-]. repeat split; discriminate.
  - intros (-> & -> & Hk & Hu).
    destruct k as [|c1 k1]; [contradiction|].
    destruct u as [|c2 u2]; [contradiction|].
    reflexivity.
Qed.

Lemma replace_trailing_slash_snoc (t : jsstring) :
  replace_trailing_slash (t ++ [47%N]) = t.
Proof.
  induction t as [|c t IH]; [reflexivity|].
  simpl app. simpl replace_trailing_slash. rewrite IH.
  destruct (t ++ [47%N]) eqn:E; [|reflexivity].
  destruct t; discriminate.
Qed.

Lemma replace_trailing_slash_other (s : jsstring) :
  last s 0%N <> 47%N -> replace_trailing_slash s = s.
Proof.
  induction s as [|c s IH]; [reflexivity|].
  destruct s as [|c' s'].
  - simpl. intros Hc. destruct (c =? 47)%N eqn:E; [|reflexivity].
    apply N.eqb_eq in E. contradiction.
  - intros Hlast. change (last (c :: c' :: s') 0%N) with (last (c' :: s') 0%N)
      in Hlast.
    change (replace_trailing_slash (c :: c' :: s'))
      with (c :: replace_trailing_slash (c' :: s')).
    rewrite (IH Hlast). reflexivity.
Qed.

(** X10.  A single final slash in the configured instance URL makes no
    difference to what is sent: for a URL [u] that does not end in a slash,
    the server configured with [u/] builds the same search and document
    requests as the server configured with [u], addressed to
    [u/api/documents.search] and [u/api/documents.info]. *)
Theorem trailing_slash_same_requests :
  forall (key u searchTerm : jsstring) (topK : Z) (documentId : option jsstring),
    last u 0%N <> 47%N ->
    let slashed := {| apiKey := key; instanceUrl := u ++ lit "/" |} in
    let plain := {| apiKey := key; instanceUrl := u |} in
    search_request slashed searchTerm topK = search_request plain searchTerm topK
    /\ info_request slashed documentId = info_request plain documentId
    /\ sr_url (search_request slashed searchTerm topK)
       = u ++ lit "/api/documents.search"
    /\ ir_url (info_request slashed documentId)
       = u ++ lit "/api/documents.info".
Proof.
  intros key u searchTerm topK documentId Hlast slashed plain.
  unfold search_request, info_request, slashed, plain, bearer. simpl.
  change (lit "/") with [47%N].
  rewrite replace_trailing_slash_snoc, (replace_trailing_slash_other u Hlast).
  repeat split.
Qed.

Lemma trailing_slash_same_requests_witness :
  search_request slash_server (lit "reset") 3
  = search_request demo_server (lit "reset") 3
  /\ info_request slash_server (Some (lit "d1"))
     = info_request demo_server (Some (lit "d1"))
  /\ sr_url (search_request slash_server (lit "reset") 3)
     = lit "https://wiki.example.com" ++ lit "/api/documents.search"
  /\ ir_url (info_request slash_server (Some (lit "d1")))
     = lit "https://wiki.example.com" ++ lit "/api/documents.info".
Proof.
  refine (trailing_slash_same_requests (lit "secret")
            (lit "https://wiki.example.com") (lit "reset") 3
            (Some (lit "d1")) _).
  vm_compute. discriminate.
Defined.

(** ** The further theorems at the example runs *)

Lemma down_run_eq :
  searchDocuments ascii_toLowerCase demo_wiki demo_server down_query
    3 4000 0%nat
  = (Thrown down_error, down_trace, 2%nat).
Proof. vm_compute. reflexivity. Qed.

Lemma down_call_eq :
  call_tool ascii_toLowerCase demo_wiki demo_server down_request 0%nat
  = (Thrown down_error, down_trace, 2%nat).
Proof. vm_compute. reflexivity. Qed.

Lemma text_is_prefix_of_source_witness :
  exists docs : list DocumentSummary,
    fst (fst (searchDocuments ascii_toLowerCase demo_wiki demo_server
                demo_query 3 4000 0%nat))
    = Returned docs
    /\ Forall2
         (fun hr d =>
            sum_text d
            = firstn (Z.to_nat 4000)
                (text_of (source_field (fst hr) (fetched (snd hr))))
            /\ ((Z.of_nat
                   (length
                      (text_of (source_field (fst hr) (fetched (snd hr)))))
                 <= 4000)%Z ->
                sum_text d
                = text_of (source_field (fst hr) (fetched (snd hr)))))
         (combine demo_hits demo_responses) docs.
Proof.
  refine (text_is_prefix_of_source ascii_toLowerCase demo_wiki demo_server
            demo_query 3%Z 4000%Z [lit "reset"] (lit "password?") []
            [AxiosOk (DataArray [])] 0%nat 1%nat 2%nat 5%nat demo_hits
            demo_responses eq_refl eq_refl _ _ eq_refl _
            demo_hits_have_documents eq_refl demo_fetches_answered
            demo_texts_are_text).
  - constructor; [|constructor].
    exists (DataArray []). split; reflexivity.
  - simpl. split; reflexivity.
  - discriminate.
Defined.

Lemma requests_discipline_witness :
  (exists searches fetches : list Event,
      demo_trace = searches ++ fetches
      /\ info_attempts searches = []
      /\ search_attempts fetches = [])
  /\ Forall
       (fun ev =>
          match ev with
          | SearchEvent rq _ =>
              sr_url rq
              = replace_trailing_slash (instanceUrl demo_server)
                ++ lit "/api/documents.search"
              /\ sr_authorization rq = lit "Bearer " ++ apiKey demo_server
              /\ In (sr_query rq) (extractKeywords ascii_toLowerCase demo_query)
              /\ sr_limit rq = 3%Z
              /\ sr_offset rq = 0%Z
              /\ sr_statusFilter rq = [lit "published"]
          | InfoEvent rq _ =>
              ir_url rq
              = replace_trailing_slash (instanceUrl demo_server)
                ++ lit "/api/documents.info"
              /\ ir_authorization rq = lit "Bearer " ++ apiKey demo_server
          end)
       demo_trace.
Proof.
  exact (requests_discipline ascii_toLowerCase demo_wiki demo_server
           demo_query 3%Z 4000%Z 0%nat (Returned demo_docs) demo_trace 5%nat
           demo_run_eq).
Defined.

Lemma search_failure_reported_witness :
  (searchDocuments ascii_toLowerCase demo_wiki demo_server down_query
     3 4000 0%nat
   = (Thrown (McpError InternalError
                (lit "Outline API error: "
                 ++ or_else None (lit "Request failed with status code 503")
                 ++ lit " (URL: " ++ instanceUrl demo_server ++ lit ")")),
      map search_event_of
        (attempts_for demo_server 3 [lit "server"] [AxiosOk DataFalsy])
      ++ [SearchEvent (search_request demo_server (lit "down") 3)
            (AxiosFail None (lit "Request failed with status code 503"))],
      2%nat)
   /\ search_and_answer ascii_toLowerCase demo_wiki demo_server down_query
        3 4000 0%nat
      = (Thrown (McpError InternalError
                   (lit "Outline API error: "
                    ++ or_else None
                         (lit "Request failed with status code 503")
                    ++ lit " (URL: " ++ instanceUrl demo_server ++ lit ")")),
         map search_event_of
           (attempts_for demo_server 3 [lit "server"] [AxiosOk DataFalsy])
         ++ [SearchEvent (search_request demo_server (lit "down") 3)
               (AxiosFail None (lit "Request failed with status code 503"))],
         2%nat))
  /\ ((exists earlier rq rm m,
          down_trace = earlier ++ [SearchEvent rq (AxiosFail rm m)]
          /\ InternalError = InternalError
          /\ lit "Outline API error: Request failed with status code 503 (URL: https://wiki.example.com)"
             = lit "Outline API error: " ++ or_else rm m
               ++ lit " (URL: " ++ instanceUrl demo_server ++ lit ")")
      /\ info_attempts down_trace = []
      /\ search_and_answer ascii_toLowerCase demo_wiki demo_server
           down_query 3 4000 0%nat
         = (Thrown
              (McpError InternalError
                 (lit "Outline API error: Request failed with status code 503 (URL: https://wiki.example.com)")),
            down_trace, 2%nat)).
Proof.
  split.
  - refine (proj1 (search_failure_reported ascii_toLowerCase demo_wiki
                     demo_server)
              down_query 3%Z 4000%Z [lit "server"] (lit "down") []
              [AxiosOk DataFalsy] 0%nat 1%nat 2%nat None
              (lit "Request failed with status code 503")
              eq_refl eq_refl _ _ eq_refl).
    + constructor; [|constructor].
      exists DataFalsy. split; reflexivity.
    + simpl. split; reflexivity.
  - exact (proj2 (search_failure_reported ascii_toLowerCase demo_wiki
                    demo_server)
             down_query 3%Z 4000%Z 0%nat InternalError
             (lit "Outline API error: Request failed with status code 503 (URL: https://wiki.example.com)")
             down_trace 2%nat down_run_eq).
Defined.

Lemma request_counts_witness :
  answered_by demo_wiki 0%nat demo_trace 5%nat
  /\ (length (search_attempts demo_trace)
      <= length (extractKeywords ascii_toLowerCase demo_query))%nat
  /\ (length (info_attempts demo_trace)
      <= length (hits_of (last_answer (map snd (search_attempts demo_trace)))))%nat
  /\ (forall docs, Returned demo_docs = Returned docs ->
                   length (info_attempts demo_trace) = length docs).
Proof.
  exact (request_counts ascii_toLowerCase demo_wiki demo_server
           demo_query 3%Z 4000%Z 0%nat (Returned demo_docs) demo_trace 5%nat
           demo_run_eq).
Defined.

Lemma call_tool_errors_witness :
  (str_eqb (params_name down_request) (lit "search_documents") = false
   /\ down_error = McpError MethodNotFound
                     (lit "Unknown tool: " ++ params_name down_request)
   /\ down_trace = [] /\ 2%nat = 0%nat)
  \/ (params_name down_request = lit "search_documents"
      /\ (exists message, down_error = McpError InvalidParams message)
      /\ down_trace = [] /\ 2%nat = 0%nat)
  \/ (params_name down_request = lit "search_documents"
      /\ down_trace <> []
      /\ ((exists earlier rq rm m,
              down_trace = earlier ++ [SearchEvent rq (AxiosFail rm m)]
              /\ down_error
                 = McpError InternalError
                     (lit "Outline API error: " ++ or_else rm m
                      ++ lit " (URL: " ++ instanceUrl demo_server ++ lit ")"))
          \/ (exists wording,
                 down_error
                 = McpError InternalError
                     (lit "Failed to search documents: "
                      ++ error_toString (TypeError wording))))).
Proof.
  exact (call_tool_errors ascii_toLowerCase demo_wiki demo_server
           down_request 0%nat down_error down_trace 2%nat down_call_eq).
Defined.
